(** * Fetch candidate portal: resume intake and onboarding progress

    A shallow embedding of the two React components that carry the
    portal's state-sensitive logic:

    - [ResumeUpload] (frontend/src/components/ResumeUpload.jsx, and the
      earlier stand-alone revision of the same component that keeps the
      parsed candidate in a [result] state), and
    - [Dashboard] (frontend/src/components/Dashboard.jsx).

    Component state is a record with one field per [useState] cell.  An
    [async] handler is split at its [await]: the synchronous prefix is one
    transition, the continuation that runs when the promise settles is
    another one, taking the outcome of the request as an argument.  Calls
    to the HTTP collaborators ([resumeAPI.upload], [authAPI.updateStatus],
    [authAPI.getCurrentUser]) and to [console.error] are recorded in
    explicit logs, so that "how many requests were issued" is a property of
    a value. *)

From Stdlib Require Import Bool Ascii String List ZArith NArith Lia.
Import ListNotations.

Local Open Scope string_scope.
Local Open Scope Z_scope.

(* ================================================================== *)
(** ** JavaScript string and value primitives used by the components *)
(* ================================================================== *)

Module JS.

(** A string that is sliced or case-converted (a file name) is kept as its
    sequence of UTF-16 code units, which is what [length], [lastIndexOf]
    and [substr] count.  Texts that are only stored, compared or shown
    (messages, statuses, captions) are kept as [string]. *)
Definition utf16 (s : string) : list N :=
  map N_of_ascii (list_ascii_of_string s).

(** [String.prototype.toLowerCase], one code unit at a time.  Listed are
    the mappings that matter when the result is compared with an ASCII
    text: [A-Z]; U+0130 (capital I with dot above), the one code unit
    whose lower case is two code units long (U+0069 U+0307); and U+212A
    (Kelvin sign), the one code unit outside ASCII that becomes an ASCII
    letter.  The capitals of the other alphabets go to one code unit
    outside ASCII each; they are left as they are here. *)
Definition lowerUnit (u : N) : list N :=
  if ((65 <=? u) && (u <=? 90))%N then [u + 32]%N
  else if (u =? 304)%N then [105; 775]%N
  else if (u =? 8490)%N then [107]%N
  else [u].

Definition toLowerCase (s : list N) : list N := flat_map lowerUnit s.

(** [s.lastIndexOf(c)] for a one-character search string: the scan keeps
    the index of the latest occurrence seen so far. *)
Fixpoint lastIndexOf_from (c : N) (s : list N) (i last : Z) : Z :=
  match s with
  | [] => last
  | a :: s' => lastIndexOf_from c s' (i + 1) (if (a =? c)%N then i else last)
  end.

Definition lastIndexOf (s : list N) (c : N) : Z :=
  lastIndexOf_from c s 0 (-1).

(** [s.substr(start)] with the length omitted: a negative [start] counts
    from the end of the string and is clamped at 0, a [start] beyond
    the end gives the empty string. *)
Definition substr (s : list N) (start : Z) : list N :=
  let len := Z.of_nat (List.length s) in
  let from := if start <? 0 then Z.max (len + start) 0
              else Z.min start len in
  skipn (Z.to_nat from) s.

(** [===] on two such strings. *)
Fixpoint unitsEqb (a b : list N) : bool :=
  match a, b with
  | [], [] => true
  | x :: a', y :: b' => (x =? y)%N && unitsEqb a' b'
  | _, _ => false
  end.

(** [array.includes(x)], for the equality test of the element type. *)
Definition includes {A : Type} (eqb : A -> A -> bool) (l : list A) (x : A)
  : bool :=
  existsb (eqb x) l.

(** Truthiness of a value that is a string, [null] or [undefined]:
    [None] stands for a missing value, and the empty string is falsy. *)
Definition truthy (v : option string) : bool :=
  match v with
  | Some s => negb (String.eqb s "")
  | None => false
  end.

(** [a || b] on such values. *)
Definition or_else (a b : option string) : option string :=
  if truthy a then a else b.

End JS.

(* ================================================================== *)
(** ** File validation (shared by both revisions of ResumeUpload) *)
(* ================================================================== *)

(** The part of a browser [File] the component reads. *)
Record File := { name : list N; size : N }.

(** The object [validateFile] returns: [{ valid, error }]. *)
Record Validation := { valid : bool; verror : option string }.

Definition allowedTypes : list (list N) :=
  [JS.utf16 ".pdf"; JS.utf16 ".doc"; JS.utf16 ".docx"].

(** The code unit of ['.']. *)
Definition dot : N := 46.

(** The three messages of [validateFile]; the specification calls the
    corresponding failures NO_FILE, UNSUPPORTED_TYPE and TOO_LARGE. *)
Definition NO_FILE : string := "No file selected".
Definition UNSUPPORTED_TYPE : string := "Please upload a PDF, DOC, or DOCX file".
Definition TOO_LARGE : string := "File size must be less than 10MB".

Definition invalid (msg : string) : Validation :=
  {| valid := false; verror := Some msg |}.

Definition fileExtension (selectedFile : File) : list N :=
  JS.substr (JS.toLowerCase (name selectedFile))
            (JS.lastIndexOf (name selectedFile) dot).

(** [validateFile]; the argument is [None] when the handler is called with
    [undefined] (an emptied file picker gives [e.target.files[0]]
    undefined). *)
Definition validateFile (selectedFile : option File) : Validation :=
  match selectedFile with
  | None => invalid NO_FILE
  | Some f =>
      if negb (JS.includes JS.unitsEqb allowedTypes (fileExtension f)) then
        invalid UNSUPPORTED_TYPE
      else if (10 * 1024 * 1024 <? size f)%N then
        invalid TOO_LARGE
      else {| valid := true; verror := None |}
  end.

(* ================================================================== *)
(** ** What the HTTP collaborators hand back *)
(* ================================================================== *)

(** [response.data] of a successful [resumeAPI.upload]. *)
Record Candidate := {
  cname : string;
  email : option string;
  location : option string;
  skills : list string;
  has_embeddings : bool
}.

Record ResponseData := { candidate : Candidate }.

(** The value a rejected axios promise carries, as far as the handlers
    look into it: [err.response?.data?.detail] and [err.message]. *)
Record ErrorBody := { detail : option string }.
Record ErrorResponse := { data : option ErrorBody }.
Record AxiosError := { response : option ErrorResponse; message : option string }.

Inductive Settled (A : Type) : Type :=
| Fulfilled (a : A)
| Rejected (err : AxiosError).
Arguments Fulfilled {A} a.
Arguments Rejected {A} err.

(** [err.response?.data?.detail] *)
Definition responseDetail (err : AxiosError) : option string :=
  match response err with
  | None => None
  | Some r => match data r with
              | None => None
              | Some b => detail b
              end
  end.

Definition GENERIC_FAILURE : string := "Something went wrong".

(** [err.response?.data?.detail || err.message || 'Something went wrong'] *)
Definition uploadErrorMessage (err : AxiosError) : option string :=
  JS.or_else (JS.or_else (responseDetail err) (message err))
             (Some GENERIC_FAILURE).

Definition isSome {A : Type} (o : option A) : bool :=
  match o with Some _ => true | None => false end.

(* ================================================================== *)
(** ** ResumeUpload.jsx: the upload form embedded in the dashboard *)
(* ================================================================== *)

Module ResumeUpload.

(** One field per [useState] cell. *)
Record State := mkState {
  file : option File;
  uploading : bool;
  error : option string;
  dragActive : bool
}.

Definition initial : State := mkState None false None false.

Definition setFile (v : option File) (st : State) : State :=
  mkState v (uploading st) (error st) (dragActive st).
Definition setUploading (v : bool) (st : State) : State :=
  mkState (file st) v (error st) (dragActive st).
Definition setError (v : option string) (st : State) : State :=
  mkState (file st) (uploading st) v (dragActive st).
Definition setDragActive (v : bool) (st : State) : State :=
  mkState (file st) (uploading st) (error st) v.

(** What a handler does to the outside world. *)
Inductive Effect :=
| Upload (f : File)              (* resumeAPI.upload(file) *)
| OnSuccess (d : ResponseData).  (* onSuccess(response.data) *)

Definition handleFileSelect (selectedFile : option File) (st : State) : State :=
  let validation := validateFile selectedFile in
  if negb (valid validation) then
    setError (verror validation) st
  else
    setError None (setFile selectedFile st).

Definition handleDrag (type : string) (st : State) : State :=
  if String.eqb type "dragenter" || String.eqb type "dragover" then
    setDragActive true st
  else if String.eqb type "dragleave" then
    setDragActive false st
  else st.

(** [files] is [e.dataTransfer.files]; only [files[0]] is looked at. *)
Definition handleDrop (files : list File) (st : State) : State :=
  let st := setDragActive false st in
  match files with
  | f :: _ => handleFileSelect (Some f) st
  | [] => st
  end.

(** [handleUpload] up to its [await]. *)
Definition handleUpload (st : State) : State * list Effect :=
  match file st with
  | None => (setError (Some "Please select a file first") st, [])
  | Some f => (setError None (setUploading true st), [Upload f])
  end.

(** The rest of [handleUpload], run when the promise of
    [resumeAPI.upload] settles: the [try] continuation or the [catch]
    block, then [finally].  [onSuccess] tells whether the prop was
    passed; the callback is taken to return normally, as the dashboard's
    handler does (it is [async] and catches its own errors). *)
Definition handleUpload_settled (onSuccess : bool)
    (outcome : Settled ResponseData) (st : State) : State * list Effect :=
  match outcome with
  | Fulfilled d =>
      (setUploading false (setFile None st),
       if onSuccess then [OnSuccess d] else [])
  | Rejected err =>
      (setUploading false (setError (uploadErrorMessage err) st), [])
  end.

(** The submit button: [disabled={!file || uploading}],
    [onClick={handleUpload}]. *)
Definition uploadDisabled (st : State) : bool :=
  negb (isSome (file st)) || uploading st.

Definition clickUpload (st : State) : State * list Effect :=
  if uploadDisabled st then (st, []) else handleUpload st.

(** The delete icon next to the staged file: [onClick={() => setFile(null)}],
    rendered only while a file is staged. *)
Definition clickDelete (st : State) : State :=
  if isSome (file st) then setFile None st else st.

(** The error alert is rendered when [error] is truthy. *)
Definition showsError (st : State) : bool := JS.truthy (error st).

Inductive Event :=
| FileSelect (selectedFile : option File)   (* file picker change *)
| Drag (type : string)
| Drop (files : list File)
| ClickUpload
| ClickDelete
| InvokeHandleUpload                        (* handleUpload() called directly *)
| UploadSettled (outcome : Settled ResponseData).

Definition step (onSuccess : bool) (st : State) (e : Event)
  : State * list Effect :=
  match e with
  | FileSelect f => (handleFileSelect f st, [])
  | Drag t => (handleDrag t st, [])
  | Drop fs => (handleDrop fs st, [])
  | ClickUpload => clickUpload st
  | ClickDelete => (clickDelete st, [])
  | InvokeHandleUpload => handleUpload st
  | UploadSettled o => handleUpload_settled onSuccess o st
  end.

Fixpoint run (onSuccess : bool) (st : State) (es : list Event)
  : State * list Effect :=
  match es with
  | [] => (st, [])
  | e :: es' =>
      let '(st1, fx1) := step onSuccess st e in
      let '(st2, fx2) := run onSuccess st1 es' in
      (st2, (fx1 ++ fx2)%list)
  end.

Definition isUpload (fx : Effect) : bool :=
  match fx with Upload _ => true | OnSuccess _ => false end.

(** Number of calls to the upload transport among the effects. *)
Definition transportCalls (fxs : list Effect) : nat :=
  List.length (filter isUpload fxs).

End ResumeUpload.

(* ================================================================== *)
(** ** The stand-alone revision of ResumeUpload (keeps a [result]) *)
(* ================================================================== *)

Module ResumeUploadPage.

Record State := mkState {
  file : option File;
  uploading : bool;
  result : option ResponseData;
  error : option string;
  dragActive : bool
}.

Definition initial : State := mkState None false None None false.

Definition setFile (v : option File) (st : State) : State :=
  mkState v (uploading st) (result st) (error st) (dragActive st).
Definition setUploading (v : bool) (st : State) : State :=
  mkState (file st) v (result st) (error st) (dragActive st).
Definition setResult (v : option ResponseData) (st : State) : State :=
  mkState (file st) (uploading st) v (error st) (dragActive st).
Definition setError (v : option string) (st : State) : State :=
  mkState (file st) (uploading st) (result st) v (dragActive st).
Definition setDragActive (v : bool) (st : State) : State :=
  mkState (file st) (uploading st) (result st) (error st) v.

Inductive Effect :=
| Upload (f : File).             (* resumeAPI.upload(file) *)

Definition handleFileSelect (selectedFile : option File) (st : State) : State :=
  let validation := validateFile selectedFile in
  if negb (valid validation) then
    setError (verror validation) st
  else
    setResult None (setError None (setFile selectedFile st)).

Definition handleDrag (type : string) (st : State) : State :=
  if String.eqb type "dragenter" || String.eqb type "dragover" then
    setDragActive true st
  else if String.eqb type "dragleave" then
    setDragActive false st
  else st.

Definition handleDrop (files : list File) (st : State) : State :=
  let st := setDragActive false st in
  match files with
  | f :: _ => handleFileSelect (Some f) st
  | [] => st
  end.

Definition handleUpload (st : State) : State * list Effect :=
  match file st with
  | None => (setError (Some "Please select a file first") st, [])
  | Some f => (setError None (setUploading true st), [Upload f])
  end.

Definition handleUpload_settled
    (outcome : Settled ResponseData) (st : State) : State * list Effect :=
  match outcome with
  | Fulfilled d =>
      (setUploading false (setFile None (setResult (Some d) st)), [])
  | Rejected err =>
      (setUploading false (setError (uploadErrorMessage err) st), [])
  end.

Definition reset (st : State) : State :=
  setError None (setResult None (setFile None st)).

(** While [result] is set the component renders the success card (with
    the "Upload Another Resume" button wired to [reset]) instead of the
    form, so the form's controls exist only when [result] is null. *)
Definition formShown (st : State) : bool := negb (isSome (result st)).

Definition uploadDisabled (st : State) : bool :=
  negb (isSome (file st)) || uploading st.

Definition clickUpload (st : State) : State * list Effect :=
  if formShown st && negb (uploadDisabled st) then handleUpload st
  else (st, []).

Definition clickDelete (st : State) : State :=
  if formShown st && isSome (file st) then setFile None st else st.

Definition clickUploadAnother (st : State) : State :=
  if formShown st then st else reset st.

Definition showsError (st : State) : bool :=
  formShown st && JS.truthy (error st).

Inductive Event :=
| FileSelect (selectedFile : option File)
| Drag (type : string)
| Drop (files : list File)
| ClickUpload
| ClickDelete
| ClickUploadAnother
| InvokeHandleUpload
| UploadSettled (outcome : Settled ResponseData).

Definition step (st : State) (e : Event) : State * list Effect :=
  match e with
  | FileSelect f => (handleFileSelect f st, [])
  | Drag t => (handleDrag t st, [])
  | Drop fs => (handleDrop fs st, [])
  | ClickUpload => clickUpload st
  | ClickDelete => (clickDelete st, [])
  | ClickUploadAnother => (clickUploadAnother st, [])
  | InvokeHandleUpload => handleUpload st
  | UploadSettled o => handleUpload_settled o st
  end.

Fixpoint run (st : State) (es : list Event) : State * list Effect :=
  match es with
  | [] => (st, [])
  | e :: es' =>
      let '(st1, fx1) := step st e in
      let '(st2, fx2) := run st1 es' in
      (st2, (fx1 ++ fx2)%list)
  end.

Definition transportCalls (fxs : list Effect) : nat := List.length fxs.

End ResumeUploadPage.

(* ================================================================== *)
(** ** Dashboard.jsx: onboarding progress *)
(* ================================================================== *)

Module Dashboard.

(** [response.data.status]: a string, [null], or missing altogether. *)
Inductive Status :=
| Undefined
| Null
| Str (s : string).

Record User := { userName : option string; status : Status }.

(** The outcome of reading a property of [statusToStepMap].  The map is
    an object literal, so besides its six own properties a lookup also
    finds the members it inherits from [Object.prototype]; those are
    functions (and, for [__proto__], the prototype object itself). *)
Inductive Value :=
| VUndefined
| VNumber (n : Z)
| VInherited (key : string).

Definition statusToStepMap : list (string * Z) :=
  [ ("registered", 0);
    ("uploaded_resume", 1);
    ("scheduled_intake", 2);
    ("completed_assessment", 3);
    ("uploaded_results", 4);
    ("completed_onboarding", 5) ].

Definition Object_prototype : list string :=
  [ "constructor"; "hasOwnProperty"; "isPrototypeOf";
    "propertyIsEnumerable"; "toLocaleString"; "toString"; "valueOf";
    "__defineGetter__"; "__defineSetter__"; "__lookupGetter__";
    "__lookupSetter__"; "__proto__" ].

(** The property key a status is converted to by [statusToStepMap[status]]. *)
Definition propertyKey (s : Status) : string :=
  match s with
  | Undefined => "undefined"
  | Null => "null"
  | Str k => k
  end.

Fixpoint ownProperty (key : string) (props : list (string * Z)) : option Z :=
  match props with
  | [] => None
  | (k, v) :: rest => if String.eqb key k then Some v else ownProperty key rest
  end.

(** [statusToStepMap[key]] *)
Definition getProperty (key : string) : Value :=
  match ownProperty key statusToStepMap with
  | Some n => VNumber n
  | None => if JS.includes String.eqb Object_prototype key then VInherited key
            else VUndefined
  end.

Definition truthyValue (v : Value) : bool :=
  match v with
  | VUndefined => false
  | VNumber n => negb (n =? 0)
  | VInherited _ => true
  end.

(** [const currentStepIndex = statusToStepMap[response.data.status] || 0] *)
Definition currentStepIndex (s : Status) : Value :=
  let v := getProperty (propertyKey s) in
  if truthyValue v then v else VNumber 0.

(** [!response.data.status] *)
Definition statusFalsy (s : Status) : bool :=
  match s with
  | Undefined | Null => true
  | Str k => String.eqb k ""
  end.

(** [status === literal] *)
Definition statusIs (s : Status) (literal : string) : bool :=
  match s with
  | Str k => String.eqb k literal
  | _ => false
  end.

(** One field per [useState] cell.  [currentStep] holds what was handed
    to [setCurrentStep]; for a [VInherited] member that is whatever
    React makes of it (a function argument is run as an updater), which
    in no case is a primitive number. *)
Record State := mkState {
  user : option User;
  loading : bool;
  error : string;
  currentStep : Value;
  showResumeUpload : bool
}.

Definition initial : State := mkState None true "" (VNumber 0) false.

Definition setUser v st :=
  mkState v (loading st) (error st) (currentStep st) (showResumeUpload st).
Definition setLoading v st :=
  mkState (user st) v (error st) (currentStep st) (showResumeUpload st).
Definition setError v st :=
  mkState (user st) (loading st) v (currentStep st) (showResumeUpload st).
Definition setCurrentStep v st :=
  mkState (user st) (loading st) (error st) v (showResumeUpload st).
Definition setShowResumeUpload v st :=
  mkState (user st) (loading st) (error st) (currentStep st) v.

Inductive Effect :=
| GetCurrentUser                                    (* authAPI.getCurrentUser() *)
| UpdateStatus (newStatus : string)                 (* authAPI.updateStatus(..) *)
| ConsoleError (label : option string) (err : AxiosError).

(** [fetchUserData] up to its [await]; also what the mount effect runs. *)
Definition fetchUserData : list Effect := [GetCurrentUser].

(** The rest of [fetchUserData], once [getCurrentUser] has settled. *)
Definition fetchUserData_settled (outcome : Settled User) (st : State)
  : State * list Effect :=
  match outcome with
  | Fulfilled u =>
      let st := setUser (Some u) st in
      let st := setCurrentStep (currentStepIndex (status u)) st in
      let st :=
        if statusFalsy (status u) || statusIs (status u) "registered"
        then setShowResumeUpload true st
        else st in
      (setLoading false st, [])
  | Rejected err =>
      (setLoading false (setError "Failed to load user data" st),
       [ConsoleError None err])
  end.

(** [handleResumeUploadSuccess] up to its first [await]. *)
Definition handleResumeUploadSuccess : list Effect :=
  [UpdateStatus "uploaded_resume"].

(** [handleResumeUploadSuccess] once [updateStatus] has settled: either
    it hides the upload panel and starts [fetchUserData] (whose own
    continuation is [fetchUserData_settled]), or the [catch] logs. *)
Definition handleResumeUploadSuccess_settled (outcome : Settled unit)
    (st : State) : State * list Effect :=
  match outcome with
  | Fulfilled _ => (setShowResumeUpload false st, fetchUserData)
  | Rejected err =>
      (st, [ConsoleError (Some "Failed to update status:") err])
  end.

(** [user?.status === 'completed_onboarding'] *)
Definition isOnboardingComplete (st : State) : bool :=
  match user st with
  | Some u => statusIs (status u) "completed_onboarding"
  | None => false
  end.

(** A button rendered inside a step: its caption and, for a link, its
    target. *)
Record Action := { caption : string; href : option string }.

Definition scheduleCall : Action :=
  {| caption := "Schedule Call"; href := Some "https://calendly.com/your-link" |}.
Definition takeAssessment : Action :=
  {| caption := "Take Assessment";
     href := Some "https://www.gallup.com/cliftonstrengths" |}.
Definition uploadResults : Action :=
  {| caption := "Upload Results"; href := None |}.
Definition scheduleFollowUp : Action :=
  {| caption := "Schedule Follow-up";
     href := Some "https://calendly.com/your-link" |}.

(** [index === currentStep] for a numeric [index]. *)
Definition isCurrent (index : Z) (cur : Value) : bool :=
  match cur with
  | VNumber n => index =? n
  | _ => false
  end.

(** The children of [<StepContent>] for the step at [index]. *)
Definition stepContent (index : Z) (cur : Value) : list Action :=
  ((if isCurrent index cur && (index =? 1) then [scheduleCall] else []) ++
   (if isCurrent index cur && (index =? 2) then [takeAssessment] else []) ++
   (if isCurrent index cur && (index =? 3) then [uploadResults] else []) ++
   (if isCurrent index cur && (index =? 4) then [scheduleFollowUp] else []))%list.

(** An entry of [onboardingSteps], without its [description] text. *)
Record OnboardingStep := { label : string; stepStatus : string }.

Definition onboardingSteps : list OnboardingStep :=
  [ {| label := "Create profile, upload resume"; stepStatus := "uploaded_resume" |};
    {| label := "Schedule intake call"; stepStatus := "scheduled_intake" |};
    {| label := "Complete Clifton Strengths assessment";
       stepStatus := "completed_assessment" |};
    {| label := "Upload Clifton Strengths results"; stepStatus := "uploaded_results" |};
    {| label := "Schedule follow-up call"; stepStatus := "completed_onboarding" |} ].

(** [onboardingSteps.map((step, index) => ...)]: the actions of all steps
    of the stepper, in order. *)
Fixpoint stepperFrom (index : Z) (steps : list OnboardingStep) (cur : Value)
  : list Action :=
  match steps with
  | [] => []
  | _ :: rest => (stepContent index cur ++ stepperFrom (index + 1) rest cur)%list
  end.

Definition stepperActions (cur : Value) : list Action :=
  stepperFrom 0 onboardingSteps cur.

(** What the component returns. *)
Inductive View :=
| Spinner
| ErrorAlert (msg : string)
| Main (uploadPanel : bool) (progress : option (list Action))
       (completePanel : bool).

Definition render (st : State) : View :=
  if loading st then Spinner
  else if negb (String.eqb (error st) "") then ErrorAlert (error st)
  else
    Main (showResumeUpload st)
         (if negb (isOnboardingComplete st) && negb (showResumeUpload st)
          then Some (stepperActions (currentStep st)) else None)
         (isOnboardingComplete st).

(** The step-local actions on screen. *)
Definition actionsShown (st : State) : list Action :=
  match render st with
  | Main _ (Some acts) _ => acts
  | _ => []
  end.

Definition uploadPanelShown (st : State) : bool :=
  match render st with
  | Main panel _ _ => panel
  | _ => false
  end.

Definition errorAlertShown (st : State) : bool :=
  match render st with
  | ErrorAlert _ => true
  | _ => false
  end.

End Dashboard.

(* ================================================================== *)
(** ** The dashboard with its embedded upload form *)
(* ================================================================== *)

Module Portal.

Record World := mkWorld {
  dash : Dashboard.State;
  upload : ResumeUpload.State
}.

Inductive Effect :=
| UploadCall (f : File)
| Dash (fx : Dashboard.Effect).

Inductive Event :=
| Form (e : ResumeUpload.Event)              (* something happens in the form *)
| StatusUpdateSettled (outcome : Settled unit)
| UserFetched (outcome : Settled Dashboard.User).

(** [<ResumeUpload onSuccess={handleResumeUploadSuccess} />] *)
Definition deliver (fx : ResumeUpload.Effect) : list Effect :=
  match fx with
  | ResumeUpload.Upload f => [UploadCall f]
  | ResumeUpload.OnSuccess _ => map Dash Dashboard.handleResumeUploadSuccess
  end.

(** The form lives only while the dashboard renders its panel; a form
    that is taken off the screen starts from its initial state when it
    is mounted again. *)
Definition remount (d : Dashboard.State) (u : ResumeUpload.State)
  : ResumeUpload.State :=
  if Dashboard.uploadPanelShown d then u else ResumeUpload.initial.

Definition step (w : World) (ev : Event) : World * list Effect :=
  match ev with
  | Form e =>
      let '(u, fxs) := ResumeUpload.step true (upload w) e in
      if Dashboard.uploadPanelShown (dash w) then
        (mkWorld (dash w) u, flat_map deliver fxs)
      else
        (* no form on screen: nothing to click; a request of a form that
           is gone may still settle, its setters then do nothing *)
        match e with
        | ResumeUpload.UploadSettled _ => (w, flat_map deliver fxs)
        | _ => (w, [])
        end
  | StatusUpdateSettled o =>
      let '(d, fxs) := Dashboard.handleResumeUploadSuccess_settled o (dash w) in
      (mkWorld d (remount d (upload w)), map Dash fxs)
  | UserFetched o =>
      let '(d, fxs) := Dashboard.fetchUserData_settled o (dash w) in
      (mkWorld d (remount d (upload w)), map Dash fxs)
  end.

Fixpoint run (w : World) (evs : list Event) : World * list Effect :=
  match evs with
  | [] => (w, [])
  | ev :: evs' =>
      let '(w1, fx1) := step w ev in
      let '(w2, fx2) := run w1 evs' in
      (w2, (fx1 ++ fx2)%list)
  end.

(** Is any error alert on screen, in the dashboard or in the form? *)
Definition errorSurfaced (w : World) : bool :=
  Dashboard.errorAlertShown (dash w) ||
  (Dashboard.uploadPanelShown (dash w) && ResumeUpload.showsError (upload w)).

Definition isStatusUpdate (fx : Effect) : bool :=
  match fx with
  | Dash (Dashboard.UpdateStatus _) => true
  | _ => false
  end.

Definition isUploadCall (fx : Effect) : bool :=
  match fx with
  | UploadCall _ => true
  | _ => false
  end.

End Portal.

(* ================================================================== *)
(** ** The specification's reading of "extension" *)
(* ================================================================== *)

(** The substring after the last ['.'] of a file name, [None] when the
    name has no ['.'] at all.  This is written after the specification's
    words, independently of [fileExtension]. *)
Fixpoint afterLastDot (filename : list N) : option (list N) :=
  match filename with
  | [] => None
  | a :: rest =>
      match afterLastDot rest with
      | Some ext => Some ext
      | None => if (a =? dot)%N then Some rest else None
      end
  end.

(** The specification's policy: the extension, compared without regard to
    case, is one of pdf, doc, docx; a name without ['.'] has none. *)
Definition extensionAllowed (filename : list N) : bool :=
  match afterLastDot filename with
  | None => false
  | Some ext =>
      JS.includes JS.unitsEqb
        [JS.utf16 "pdf"; JS.utf16 "doc"; JS.utf16 "docx"] (JS.toLowerCase ext)
  end.

(* ================================================================== *)
(** ** The scenario "upload accepted, status update refused" *)
(* ================================================================== *)

(** The form is on screen with a file staged and no upload under way. *)
Definition readyToSubmit (w : Portal.World) (f : File) : Prop :=
  Dashboard.uploadPanelShown (Portal.dash w) = true /\
  ResumeUpload.file (Portal.upload w) = Some f /\
  ResumeUpload.uploading (Portal.upload w) = false.

(** Submit, the upload is accepted, then [updateStatus] is refused. *)
Definition acceptedThenRefused (d : ResponseData) (err : AxiosError)
  : list Portal.Event :=
  [ Portal.Form ResumeUpload.ClickUpload;
    Portal.Form (ResumeUpload.UploadSettled (Fulfilled d));
    Portal.StatusUpdateSettled (Rejected err) ].

(* ================================================================== *)
(** ** Requests in flight *)
(* ================================================================== *)

(** A promise settles once per call.  A session pairs the form with the
    number of upload requests that were issued and have not settled yet;
    a settlement is only possible while that number is positive. *)
Module UploadSession.

Record Session := mkSession {
  form : ResumeUpload.State;
  pending : nat
}.

Definition start : Session := mkSession ResumeUpload.initial 0.

Definition step (onSuccess : bool) (s : Session) (e : ResumeUpload.Event)
  : Session * list ResumeUpload.Effect :=
  match e with
  | ResumeUpload.UploadSettled _ =>
      match pending s with
      | O => (s, [])
      | S n =>
          let '(st, fxs) := ResumeUpload.step onSuccess (form s) e in
          (mkSession st n, fxs)
      end
  | _ =>
      let '(st, fxs) := ResumeUpload.step onSuccess (form s) e in
      (mkSession st (pending s + ResumeUpload.transportCalls fxs), fxs)
  end.

Fixpoint run (onSuccess : bool) (s : Session) (es : list ResumeUpload.Event)
  : Session * list ResumeUpload.Effect :=
  match es with
  | [] => (s, [])
  | e :: es' =>
      let '(s1, fx1) := step onSuccess s e in
      let '(s2, fx2) := run onSuccess s1 es' in
      (s2, (fx1 ++ fx2)%list)
  end.

(** The events the rendered form and the network can produce: all but a
    direct call of the handler. *)
Definition fromScreen (e : ResumeUpload.Event) : bool :=
  match e with
  | ResumeUpload.InvokeHandleUpload => false
  | _ => true
  end.

(** What the user can do with the form while a request is under way. *)
Definition userAction (e : ResumeUpload.Event) : bool :=
  match e with
  | ResumeUpload.InvokeHandleUpload | ResumeUpload.UploadSettled _ => false
  | _ => true
  end.

End UploadSession.

Module UploadPageSession.

Record Session := mkSession {
  form : ResumeUploadPage.State;
  pending : nat
}.

Definition start : Session := mkSession ResumeUploadPage.initial 0.

Definition step (s : Session) (e : ResumeUploadPage.Event)
  : Session * list ResumeUploadPage.Effect :=
  match e with
  | ResumeUploadPage.UploadSettled _ =>
      match pending s with
      | O => (s, [])
      | S n =>
          let '(st, fxs) := ResumeUploadPage.step (form s) e in
          (mkSession st n, fxs)
      end
  | _ =>
      let '(st, fxs) := ResumeUploadPage.step (form s) e in
      (mkSession st (pending s + ResumeUploadPage.transportCalls fxs), fxs)
  end.

Fixpoint run (s : Session) (es : list ResumeUploadPage.Event)
  : Session * list ResumeUploadPage.Effect :=
  match es with
  | [] => (s, [])
  | e :: es' =>
      let '(s1, fx1) := step s e in
      let '(s2, fx2) := run s1 es' in
      (s2, (fx1 ++ fx2)%list)
  end.

Definition fromScreen (e : ResumeUploadPage.Event) : bool :=
  match e with
  | ResumeUploadPage.InvokeHandleUpload => false
  | _ => true
  end.

End UploadPageSession.

(** In a session driven from the screen, the flag and the number of
    requests under way go together. *)
Definition inStep (uploading : bool) (pending : nat) : Prop :=
  (uploading = true /\ pending = 1%nat) \/ (uploading = false /\ pending = 0%nat).

(** A staged file, if there is one, has passed [validateFile]. *)
Definition stagedValid (staged : option File) : Prop :=
  match staged with
  | Some f => valid (validateFile (Some f)) = true
  | None => True
  end.

(* ================================================================== *)
(** ** Dashboard.jsx: the icons of the stepper *)
(* ================================================================== *)

Module Stepper.

Inductive Icon :=
| Completed      (* <CheckCircleIcon color="primary" /> *)
| Active         (* <RadioButtonUncheckedIcon color="primary" /> *)
| Future.        (* <RadioButtonUncheckedIcon color="disabled" /> *)

(** [getStepIcon]; it is called with the indices 0..4 of the steps.  When
    [currentStep] is not a number, neither [stepIndex < currentStep] nor
    [stepIndex === currentStep] holds for such an index. *)
Definition getStepIcon (stepIndex : Z) (currentStep : Dashboard.Value) : Icon :=
  match currentStep with
  | Dashboard.VNumber n =>
      if stepIndex <? n then Completed
      else if stepIndex =? n then Active
      else Future
  | _ => Future
  end.

(** [onboardingSteps.map((step, index) => getStepIcon(index))] *)
Fixpoint iconsFrom (index : Z) (steps : list Dashboard.OnboardingStep)
    (currentStep : Dashboard.Value) : list Icon :=
  match steps with
  | [] => []
  | _ :: rest => getStepIcon index currentStep :: iconsFrom (index + 1) rest currentStep
  end.

Definition stepIcons (currentStep : Dashboard.Value) : list Icon :=
  iconsFrom 0 Dashboard.onboardingSteps currentStep.

Definition isCompleted (i : Icon) : bool :=
  match i with Completed => true | _ => false end.

Definition isActive (i : Icon) : bool :=
  match i with Active => true | _ => false end.

End Stepper.

(* ================================================================== *)
(** ** Session storage, the request interceptor, Header and Login *)
(* ================================================================== *)

(** [window.localStorage], as far as [getItem] can tell. *)
Module LocalStorage.

Definition Storage := list (string * string).

Fixpoint getItem (key : string) (s : Storage) : option string :=
  match s with
  | [] => None
  | (k, v) :: rest => if String.eqb key k then Some v else getItem key rest
  end.

Fixpoint removeItem (key : string) (s : Storage) : Storage :=
  match s with
  | [] => []
  | (k, v) :: rest =>
      if String.eqb key k then removeItem key rest
      else (k, v) :: removeItem key rest
  end.

Definition setItem (key value : string) (s : Storage) : Storage :=
  (key, value) :: removeItem key s.

End LocalStorage.

(** The api module (the revision that sends the token). *)
Module Api.

(** The request interceptor: the [Authorization] header it adds, if any. *)
Definition authorization (s : LocalStorage.Storage) : option string :=
  let token := LocalStorage.getItem "token" s in
  if JS.truthy token then
    match token with
    | Some t => Some ("Bearer " ++ t)
    | None => None
    end
  else None.

(** [authAPI.logout], up to its request. *)
Definition logout (s : LocalStorage.Storage) : LocalStorage.Storage :=
  LocalStorage.removeItem "user" (LocalStorage.removeItem "token" s).

End Api.

Module Header.

Inductive Effect :=
| Navigate (path : string).

Definition handleUserTypeSelect (type : string) (s : LocalStorage.Storage)
  : LocalStorage.Storage * list Effect :=
  (LocalStorage.setItem "userType" type s, [Navigate "/login"]).

Definition handleLogout (s : LocalStorage.Storage)
  : LocalStorage.Storage * list Effect :=
  (LocalStorage.removeItem "userType"
     (LocalStorage.removeItem "user"
        (LocalStorage.removeItem "token" s)),
   [Navigate "/"]).

(** [!!localStorage.getItem('token')] *)
Definition isLoggedIn (s : LocalStorage.Storage) : bool :=
  JS.truthy (LocalStorage.getItem "token" s).

End Header.

Module Login.

(** The two properties of [formData] the component reads. *)
Record FormData := mkForm { emailField : string; passwordField : string }.

Record State := mkState {
  formData : FormData;
  error : string;
  loading : bool
}.

Definition initial : State := mkState (mkForm "" "") "" false.

(** [setFormData({...formData, [e.target.name]: e.target.value})]; a name
    other than the two fields adds a property nobody reads. *)
Definition handleChange (targetName targetValue : string) (st : State) : State :=
  let fd := formData st in
  let fd' :=
    if String.eqb targetName "email" then mkForm targetValue (passwordField fd)
    else if String.eqb targetName "password" then mkForm (emailField fd) targetValue
    else fd in
  mkState fd' (error st) (loading st).

Inductive Effect :=
| PostLogin (email password : string)    (* authAPI.login(email, password) *)
| Navigate (path : string).

(** How [authAPI.login] settles: with [response.data.token] and the JSON
    text of [response.data.user], or with [err.response?.status]. *)
Inductive Outcome :=
| LoggedIn (token : option string) (userJson : string)
| Refused (status : option Z).

(** [handleSubmit] up to its [await]. *)
Definition handleSubmit (st : State) : State * list Effect :=
  (mkState (formData st) "" true,
   [PostLogin (emailField (formData st)) (passwordField (formData st))]).

(** The rest of [handleSubmit]. *)
Definition handleSubmit_settled (outcome : Outcome)
    (s : LocalStorage.Storage) (st : State)
  : LocalStorage.Storage * State * list Effect :=
  match outcome with
  | LoggedIn token userJson =>
      let s' :=
        match token with
        | Some t =>
            if JS.truthy token then
              LocalStorage.setItem "user" userJson
                (LocalStorage.setItem "token" t s)
            else s
        | None => s
        end in
      (s', mkState (formData st) (error st) false, [Navigate "/dashboard"])
  | Refused status =>
      let msg :=
        match status with
        | Some 401 => "Invalid email or password"
        | Some 500 => "Server error. Please try again later."
        | _ => "An error occurred. Please try again."
        end in
      (s, mkState (formData st) msg false, [])
  end.

(** The submit button:
    [disabled={loading || !formData.email || !formData.password}]. *)
Definition submitDisabled (st : State) : bool :=
  loading st
  || String.eqb (emailField (formData st)) ""
  || String.eqb (passwordField (formData st)) "".

Definition clickSubmit (st : State) : State * list Effect :=
  if submitDisabled st then (st, []) else handleSubmit st.

(** [localStorage.getItem('userType') === 'mlg-recruiter'] *)
Definition isRecruiter (s : LocalStorage.Storage) : bool :=
  match LocalStorage.getItem "userType" s with
  | Some t => String.eqb t "mlg-recruiter"
  | None => false
  end.

End Login.

(* ================================================================== *)
(** * Properties *)
(* ================================================================== *)

(** A state record is taken apart and the handlers are run on it. *)
Ltac crush_state :=
  intros;
  repeat match goal with x := _ |- _ => subst x end;
  repeat match goal with
         | st : ResumeUpload.State |- _ => destruct st
         | st : ResumeUploadPage.State |- _ => destruct st
         end;
  cbn in *; subst; cbn;
  repeat match goal with
         | |- _ /\ _ => split
         end;
  try reflexivity; try discriminate; try congruence.

(** ** Strings *)

Lemma unitsEqb_eq (a b : list N) : JS.unitsEqb a b = true <-> a = b.
Proof.
  revert b; induction a as [|x a IH]; intros [|y b]; simpl;
    try (split; [reflexivity || discriminate | reflexivity || discriminate]).
  rewrite andb_true_iff, N.eqb_eq, IH. split.
  - intros [-> ->]. reflexivity.
  - intros [= -> ->]. auto.
Qed.

Lemma includes_In (l : list (list N)) (x : list N) :
  JS.includes JS.unitsEqb l x = true <-> In x l.
Proof.
  unfold JS.includes. rewrite existsb_exists. split.
  - intros [y [Hy E]]. apply unitsEqb_eq in E. now subst.
  - intros H. exists x. split; [assumption | now apply unitsEqb_eq].
Qed.

Lemma length_lowerUnit (u : N) : (1 <= List.length (JS.lowerUnit u))%nat.
Proof.
  unfold JS.lowerUnit.
  destruct ((65 <=? u) && (u <=? 90))%N; [simpl; lia|].
  destruct (u =? 304)%N; [simpl; lia|].
  destruct (u =? 8490)%N; simpl; lia.
Qed.

Lemma length_toLowerCase_ge (s : list N) :
  (List.length s <= List.length (JS.toLowerCase s))%nat.
Proof.
  induction s as [|u s IH]; simpl; [lia|].
  rewrite length_app. pose proof (length_lowerUnit u). lia.
Qed.

(** Only U+0130 makes the lower-cased string longer. *)
Lemma length_toLowerCase_eq (s : list N) :
  ~ In 304%N s -> List.length (JS.toLowerCase s) = List.length s.
Proof.
  induction s as [|u s IH]; simpl; [reflexivity|].
  intros H. rewrite length_app, IH by tauto.
  unfold JS.lowerUnit.
  destruct ((65 <=? u) && (u <=? 90))%N; [reflexivity|].
  destruct (N.eqb_spec u 304); [exfalso; apply H; left; congruence|].
  destruct (u =? 8490)%N; reflexivity.
Qed.

Lemma toLowerCase_app (s t : list N) :
  JS.toLowerCase (s ++ t) = (JS.toLowerCase s ++ JS.toLowerCase t)%list.
Proof. apply flat_map_app. Qed.

Lemma lastIndexOf_from_absent (c : N) (s : list N) (i last : Z) :
  ~ In c s -> JS.lastIndexOf_from c s i last = last.
Proof.
  revert i last; induction s as [|a s IH]; intros i last H; simpl in *; auto.
  destruct (N.eqb_spec a c); [tauto|]. apply IH. tauto.
Qed.

Lemma lastIndexOf_from_app (c : N) (s t : list N) (i last : Z) :
  JS.lastIndexOf_from c (s ++ t) i last =
  JS.lastIndexOf_from c t (i + Z.of_nat (List.length s))
                      (JS.lastIndexOf_from c s i last).
Proof.
  revert i last; induction s as [|a s IH]; intros i last.
  - simpl. now rewrite Z.add_0_r.
  - cbn [app JS.lastIndexOf_from List.length]. rewrite IH.
    f_equal. lia.
Qed.

(** The index found in [stem ++ c :: ext], when [c] does not occur in
    [ext], is the position right after [stem]. *)
Lemma lastIndexOf_split (c : N) (stem ext : list N) :
  ~ In c ext ->
  JS.lastIndexOf (stem ++ c :: ext) c = Z.of_nat (List.length stem).
Proof.
  intros H. unfold JS.lastIndexOf.
  rewrite lastIndexOf_from_app. simpl. rewrite N.eqb_refl.
  now rewrite lastIndexOf_from_absent.
Qed.

Lemma afterLastDot_None (s : list N) :
  afterLastDot s = None <-> ~ In dot s.
Proof.
  induction s as [|a s IH]; simpl.
  - tauto.
  - destruct (afterLastDot s) as [e|].
    + split; [discriminate|]. intros H. exfalso.
      assert (X : Some e = None) by (apply IH; tauto). discriminate X.
    + destruct (N.eqb_spec a dot).
      * split; [discriminate | tauto].
      * split; [|reflexivity]. intros _ [H|H]; [tauto|].
        now apply (proj1 IH).
Qed.

(** [afterLastDot] is what its name says. *)
Lemma afterLastDot_Some (s ext : list N) :
  afterLastDot s = Some ext <->
  exists stem, s = (stem ++ dot :: ext)%list /\ ~ In dot ext.
Proof.
  revert ext; induction s as [|a s IH]; intros ext; simpl.
  - split; [discriminate|]. intros [[|b stem] [H _]]; discriminate.
  - destruct (afterLastDot s) as [e|] eqn:E.
    + split.
      * intros [= <-]. destruct (proj1 (IH e) eq_refl) as [stem [-> Hd]].
        exists (a :: stem). now split.
      * intros [stem [H Hd]]. destruct stem as [|b stem]; simpl in H.
        -- injection H as _ ->. apply afterLastDot_None in Hd. congruence.
        -- injection H as _ H.
           assert (X : Some e = Some ext) by (apply IH; eauto).
           exact X.
    + apply afterLastDot_None in E. split.
      * destruct (N.eqb_spec a dot); [|discriminate].
        intros [= <-]. subst a. exists []. now split.
      * intros [stem [H Hd]]. destruct stem as [|b stem]; simpl in H.
        -- injection H as -> ->. now rewrite N.eqb_refl.
        -- injection H as _ ->. exfalso. apply E.
           apply in_or_app. right. now left.
Qed.

(** ** validateFile *)

Lemma fileExtension_split (f : File) (stem ext : list N) :
  name f = (stem ++ dot :: ext)%list -> ~ In dot ext ->
  fileExtension f
  = (skipn (List.length stem) (JS.toLowerCase stem)
       ++ dot :: JS.toLowerCase ext)%list.
Proof.
  intros Hn Hd. unfold fileExtension. rewrite Hn.
  rewrite lastIndexOf_split by assumption.
  unfold JS.substr.
  pose proof (length_toLowerCase_ge (stem ++ dot :: ext)) as L.
  rewrite length_app in L.
  assert (Hneg : (Z.of_nat (List.length stem) <? 0) = false)
    by (apply Z.ltb_ge; lia).
  rewrite Hneg, Z.min_l by lia. rewrite Nat2Z.id.
  rewrite toLowerCase_app, skipn_app.
  pose proof (length_toLowerCase_ge stem) as Ls.
  replace (List.length stem - List.length (JS.toLowerCase stem))%nat
    with 0%nat by lia.
  reflexivity.
Qed.

Lemma fileExtension_no_dot (f : File) :
  ~ In dot (name f) -> (List.length (fileExtension f) <= 1)%nat.
Proof.
  intros Hd. unfold fileExtension, JS.lastIndexOf.
  rewrite lastIndexOf_from_absent by assumption.
  unfold JS.substr. change (-1 <? 0) with true. cbv iota.
  rewrite length_skipn. lia.
Qed.

Lemma allowedTypes_shape (x : list N) :
  In x allowedTypes ->
  exists e, x = dot :: e /\ ~ In dot e /\
            In e [JS.utf16 "pdf"; JS.utf16 "doc"; JS.utf16 "docx"].
Proof.
  intros [H|[H|[H|[]]]]; subst x;
    [exists (JS.utf16 "pdf") | exists (JS.utf16 "doc") | exists (JS.utf16 "docx")];
    (split; [reflexivity|]); (split; [|simpl; tauto]);
    cbv; intros H; repeat (destruct H as [H|H]; [discriminate H|]); exact H.
Qed.

(** The source's extension test implies the specification's policy. *)
Lemma includes_fileExtension_sound (f : File) :
  JS.includes JS.unitsEqb allowedTypes (fileExtension f) = true ->
  extensionAllowed (name f) = true.
Proof.
  intros H. apply includes_In in H.
  destruct (allowedTypes_shape _ H) as [e [He [Hde Hin]]].
  unfold extensionAllowed.
  destruct (afterLastDot (name f)) as [ext|] eqn:E.
  - apply afterLastDot_Some in E as [stem [Hn Hd]].
    rewrite (fileExtension_split f stem ext Hn Hd) in He.
    destruct (skipn (List.length stem) (JS.toLowerCase stem)) as [|a r].
    + simpl in He. injection He as He. rewrite He. now apply includes_In.
    + simpl in He. injection He as _ He. exfalso. apply Hde.
      rewrite <- He. apply in_or_app. right. now left.
  - apply afterLastDot_None in E. apply fileExtension_no_dot in E.
    rewrite He in E. simpl in E.
    destruct Hin as [<-|[<-|[<-|[]]]]; simpl in E; lia.
Qed.

(** The two agree on names without U+0130. *)
Lemma includes_fileExtension_complete (f : File) :
  ~ In 304%N (name f) ->
  extensionAllowed (name f) = true ->
  JS.includes JS.unitsEqb allowedTypes (fileExtension f) = true.
Proof.
  intros Hi. unfold extensionAllowed.
  destruct (afterLastDot (name f)) as [ext|] eqn:E; [|discriminate].
  apply afterLastDot_Some in E as [stem [Hn Hd]].
  rewrite (fileExtension_split f stem ext Hn Hd).
  rewrite skipn_all2.
  - intros H. exact H.
  - rewrite length_toLowerCase_eq; [lia|].
    intros Hs. apply Hi. rewrite Hn. apply in_or_app. now left.
Qed.


Lemma validateFile_failed_extension (f : File) :
  JS.includes JS.unitsEqb allowedTypes (fileExtension f) = false <->
  validateFile (Some f) = invalid UNSUPPORTED_TYPE.
Proof.
  unfold validateFile.
  destruct (JS.includes JS.unitsEqb allowedTypes (fileExtension f)); simpl.
  - split; [discriminate|].
    destruct (10485760 <? size f)%N; intros H; discriminate H.
  - tauto.
Qed.

(** C4.  Whenever the part of the file name after its last ['.'],
    lower-cased, is none of pdf, doc, docx, [validateFile] answers with
    the unsupported-type message; a name without any ['.'] gets that
    answer whatever the size.  'resume.PDF' (1 KB) is accepted,
    'resume.txt' and 'resumepdf' are rejected.  On names without U+0130
    the message is given in no other case. *)
Theorem validateFile_unsupported_type :
  (forall f : File,
      extensionAllowed (name f) = false ->
      validateFile (Some f) = invalid UNSUPPORTED_TYPE) /\
  (forall (f : File) (stem ext : list N),
      name f = (stem ++ dot :: ext)%list -> ~ In dot ext ->
      JS.includes JS.unitsEqb
        [JS.utf16 "pdf"; JS.utf16 "doc"; JS.utf16 "docx"] (JS.toLowerCase ext)
        = false ->
      validateFile (Some f) = invalid UNSUPPORTED_TYPE) /\
  (forall f : File,
      ~ In dot (name f) ->
      validateFile (Some f) = invalid UNSUPPORTED_TYPE) /\
  (forall f : File,
      ~ In 304%N (name f) ->
      (validateFile (Some f) = invalid UNSUPPORTED_TYPE <->
       extensionAllowed (name f) = false)) /\
  validateFile (Some {| name := JS.utf16 "resume.PDF"; size := 1024 |})
    = {| valid := true; verror := None |} /\
  validateFile (Some {| name := JS.utf16 "resume.txt"; size := 1024 |})
    = invalid UNSUPPORTED_TYPE /\
  validateFile (Some {| name := JS.utf16 "resumepdf"; size := 1024 |})
    = invalid UNSUPPORTED_TYPE.
Proof.
  assert (Hsound : forall f : File,
             extensionAllowed (name f) = false ->
             validateFile (Some f) = invalid UNSUPPORTED_TYPE).
  { intros f H. apply validateFile_failed_extension.
    destruct (JS.includes JS.unitsEqb allowedTypes (fileExtension f)) eqn:E;
      [|reflexivity].
    apply includes_fileExtension_sound in E. congruence. }
  split; [exact Hsound|]. split; [|split; [|split; [|repeat split]]].
  - intros f stem ext Hn Hd Hx. apply Hsound. unfold extensionAllowed.
    assert (E : afterLastDot (name f) = Some ext)
      by (apply afterLastDot_Some; eauto).
    now rewrite E.
  - intros f Hd. apply Hsound. unfold extensionAllowed.
    apply afterLastDot_None in Hd. now rewrite Hd.
  - intros f Hi. split; [|apply Hsound].
    intros H. apply validateFile_failed_extension in H.
    destruct (extensionAllowed (name f)) eqn:E; [|reflexivity].
    apply (includes_fileExtension_complete f Hi) in E. congruence.
Qed.

Lemma validateFile_unsupported_type_witness :
  (extensionAllowed (JS.utf16 "archive.tar.GZ") = false /\
   validateFile (Some {| name := JS.utf16 "archive.tar.GZ"; size := 10 |})
     = invalid UNSUPPORTED_TYPE) /\
  (~ In dot (JS.utf16 "resumepdf") /\
   validateFile (Some {| name := JS.utf16 "resumepdf"; size := 20000000 |})
     = invalid UNSUPPORTED_TYPE).
Proof.
  destruct validateFile_unsupported_type as [Hext [_ [Hnodot _]]].
  assert (Hd : ~ In dot (JS.utf16 "resumepdf")).
  { cbv. intros H. repeat (destruct H as [H|H]; [discriminate H|]). exact H. }
  split; split.
  - reflexivity.
  - apply (Hext {| name := JS.utf16 "archive.tar.GZ"; size := 10 |}).
    reflexivity.
  - exact Hd.
  - apply (Hnodot {| name := JS.utf16 "resumepdf"; size := 20000000 |}).
    exact Hd.
Defined.




(** The name U+0130 'brahim.pdf' (capital I with dot above, then
    'brahim.pdf') shows where the extension test and the part after the
    last ['.'] part ways: the index of the ['.'] is taken in the name as
    given and applied to the lower-cased name, which is one code unit
    longer, so the slice is 'm.pdf' and the file is turned down for its
    type at any size. *)
Remark validateFile_dotted_capital_I :
  let ibrahim := (304 :: JS.utf16 "brahim.pdf")%N in
  extensionAllowed ibrahim = true /\
  JS.lastIndexOf ibrahim dot = 7 /\
  JS.toLowerCase ibrahim = (105 :: 775 :: JS.utf16 "brahim.pdf")%N /\
  fileExtension {| name := ibrahim; size := 1024 |} = JS.utf16 "m.pdf" /\
  validateFile (Some {| name := ibrahim; size := 1024 |})
    = invalid UNSUPPORTED_TYPE.
Proof. repeat split. Qed.

(** ** The upload form *)


Lemma truthy_uploadErrorMessage (err : AxiosError) :
  JS.truthy (uploadErrorMessage err) = true.
Proof.
  unfold uploadErrorMessage, JS.or_else.
  destruct (JS.truthy (responseDetail err)) eqn:D; rewrite ?D; cbn; auto.
  destruct (JS.truthy (message err)) eqn:M; rewrite ?M; cbn; auto.
Qed.

(** The reason shown after a failed upload, in the order of preference of
    the source expression. *)
Lemma uploadErrorMessage_priority (err : AxiosError) :
  (JS.truthy (responseDetail err) = true ->
   uploadErrorMessage err = responseDetail err) /\
  (JS.truthy (responseDetail err) = false ->
   JS.truthy (message err) = true ->
   uploadErrorMessage err = message err) /\
  (JS.truthy (responseDetail err) = false ->
   JS.truthy (message err) = false ->
   uploadErrorMessage err = Some GENERIC_FAILURE).
Proof.
  unfold uploadErrorMessage, JS.or_else.
  repeat split; intros D; try intros M; rewrite D; try rewrite M;
    try rewrite D; reflexivity.
Qed.




(** C7, as stated, does not hold: when validation fails [handleFileSelect]
    stores the message and returns before touching [file], so a file
    staged earlier ('cv.pdf') is still staged after 'notes.txt' has been
    turned down. *)
Lemma handleFileSelect_keeps_staged_file :
  let cv := {| name := JS.utf16 "cv.pdf"; size := 1000 |} in
  let notes := {| name := JS.utf16 "notes.txt"; size := 10 |} in
  let st := ResumeUpload.mkState (Some cv) false None false in
  valid (validateFile (Some notes)) = false /\
  ResumeUpload.handleFileSelect (Some notes) st
    = ResumeUpload.mkState (Some cv) false (Some UNSUPPORTED_TYPE) false /\
  ~ (forall (candidate : option File) (s : ResumeUpload.State),
        valid (validateFile candidate) = false ->
        ResumeUpload.file (ResumeUpload.handleFileSelect candidate s) = None).
Proof.
  cbn. repeat split.
  intros H.
  specialize (H (Some {| name := JS.utf16 "notes.txt"; size := 10 |})
                (ResumeUpload.mkState (Some {| name := JS.utf16 "cv.pdf"; size := 1000 |})
                            false None false) eq_refl).
  discriminate H.
Qed.

Lemma validateFile_valid_Some (candidate : option File) :
  valid (validateFile candidate) = true -> exists f, candidate = Some f.
Proof. destruct candidate as [f|]; [eauto | discriminate]. Qed.

Lemma validateFile_invalid_message (candidate : option File) :
  valid (validateFile candidate) = false ->
  exists msg, verror (validateFile candidate) = Some msg.
Proof.
  destruct candidate as [f|]; cbn; [|eauto].
  destruct (negb _); cbn; [eauto|].
  destruct (_ <? _)%N; cbn; [eauto | discriminate].
Qed.

(** C7, amended.  When validation fails, [handleFileSelect] stores the
    validation message and changes nothing else: it stages no file, so
    with nothing staged before nothing is staged after, and a file staged
    before stays staged.  When validation succeeds the candidate becomes
    the staged file and the earlier error is cleared, as is the earlier
    result in the revision that keeps one. *)
Theorem handleFileSelect_outcomes :
  (forall (candidate : option File) (st : ResumeUpload.State),
      valid (validateFile candidate) = false ->
      (exists msg, verror (validateFile candidate) = Some msg) /\
      ResumeUpload.handleFileSelect candidate st
        = ResumeUpload.setError (verror (validateFile candidate)) st /\
      ResumeUpload.file (ResumeUpload.handleFileSelect candidate st) = ResumeUpload.file st) /\
  (forall (candidate : option File) (st : ResumeUpload.State),
      valid (validateFile candidate) = true ->
      (exists f, candidate = Some f) /\
      ResumeUpload.handleFileSelect candidate st
        = ResumeUpload.mkState candidate (ResumeUpload.uploading st) None (ResumeUpload.dragActive st)) /\
  (forall (candidate : option File) (st : ResumeUploadPage.State),
      valid (validateFile candidate) = false ->
      (exists msg, verror (validateFile candidate) = Some msg) /\
      ResumeUploadPage.handleFileSelect candidate st
        = ResumeUploadPage.setError (verror (validateFile candidate)) st /\
      ResumeUploadPage.file (ResumeUploadPage.handleFileSelect candidate st) = ResumeUploadPage.file st) /\
  (forall (candidate : option File) (st : ResumeUploadPage.State),
      valid (validateFile candidate) = true ->
      (exists f, candidate = Some f) /\
      ResumeUploadPage.handleFileSelect candidate st
        = ResumeUploadPage.mkState candidate (ResumeUploadPage.uploading st) None None (ResumeUploadPage.dragActive st)).
Proof.
  split; [|split; [|split]]; intros candidate st H.
  - split; [now apply validateFile_invalid_message|].
    unfold ResumeUpload.handleFileSelect. rewrite H. now destruct st.
  - split; [now apply validateFile_valid_Some|].
    unfold ResumeUpload.handleFileSelect. rewrite H. now destruct st.
  - split; [now apply validateFile_invalid_message|].
    unfold ResumeUploadPage.handleFileSelect. rewrite H. now destruct st.
  - split; [now apply validateFile_valid_Some|].
    unfold ResumeUploadPage.handleFileSelect. rewrite H. now destruct st.
Qed.

Lemma handleFileSelect_outcomes_witness :
  let cv := {| name := JS.utf16 "cv.pdf"; size := 1000 |} in
  let big := {| name := JS.utf16 "scan.doc"; size := 99999999 |} in
  (valid (validateFile (Some big)) = false /\
   ResumeUpload.file (ResumeUpload.handleFileSelect (Some big) (ResumeUpload.mkState (Some cv) false None false))
     = Some cv) /\
  (valid (validateFile (Some cv)) = true /\
   ResumeUploadPage.handleFileSelect (Some cv)
       (ResumeUploadPage.mkState None false (Some {| candidate :=
            {| cname := "Ada"; email := None; location := None;
               skills := []; has_embeddings := false |} |})
          (Some TOO_LARGE) false)
     = ResumeUploadPage.mkState (Some cv) false None None false).
Proof.
  destruct handleFileSelect_outcomes as [Hbad [_ [_ Hgood]]].
  split; (split; [reflexivity|]).
  - apply (Hbad (Some {| name := JS.utf16 "scan.doc"; size := 99999999 |})
                (ResumeUpload.mkState (Some {| name := JS.utf16 "cv.pdf"; size := 1000 |})
                            false None false)).
    reflexivity.
  - apply (Hgood (Some {| name := JS.utf16 "cv.pdf"; size := 1000 |})). reflexivity.
Defined.

(** C8.  A submit whose request is rejected ends with [uploading] reset
    and [error] holding a non-empty reason: the [detail] of the response
    body when there is one, else the error's [message], else the fixed
    text 'Something went wrong'.  The failure branch leaves [file] as it
    was, so the file staged for the failed attempt is still staged, the
    button is enabled, and submitting again sends the same file. *)
Theorem failed_upload_keeps_file :
  (forall (onSuccess : bool) (st : ResumeUpload.State) (f : File) (err : AxiosError),
      ResumeUpload.file st = Some f ->
      let started := fst (ResumeUpload.handleUpload st) in
      let failed := fst (ResumeUpload.handleUpload_settled onSuccess (Rejected err) started) in
      snd (ResumeUpload.handleUpload st) = [ResumeUpload.Upload f] /\
      snd (ResumeUpload.handleUpload_settled onSuccess (Rejected err) started) = [] /\
      ResumeUpload.uploading failed = false /\
      ResumeUpload.error failed = uploadErrorMessage err /\
      ResumeUpload.file failed = Some f /\
      ResumeUpload.uploadDisabled failed = false /\
      snd (ResumeUpload.handleUpload failed) = [ResumeUpload.Upload f]) /\
  (forall (st : ResumeUploadPage.State) (f : File) (err : AxiosError),
      ResumeUploadPage.file st = Some f ->
      let started := fst (ResumeUploadPage.handleUpload st) in
      let failed := fst (ResumeUploadPage.handleUpload_settled (Rejected err) started) in
      snd (ResumeUploadPage.handleUpload st) = [ResumeUploadPage.Upload f] /\
      snd (ResumeUploadPage.handleUpload_settled (Rejected err) started) = [] /\
      ResumeUploadPage.uploading failed = false /\
      ResumeUploadPage.error failed = uploadErrorMessage err /\
      ResumeUploadPage.file failed = Some f /\
      ResumeUploadPage.result failed = ResumeUploadPage.result st /\
      ResumeUploadPage.uploadDisabled failed = false /\
      snd (ResumeUploadPage.handleUpload failed) = [ResumeUploadPage.Upload f]) /\
  (forall err : AxiosError,
      JS.truthy (uploadErrorMessage err) = true /\
      (JS.truthy (responseDetail err) = true ->
       uploadErrorMessage err = responseDetail err) /\
      (JS.truthy (responseDetail err) = false ->
       JS.truthy (message err) = true ->
       uploadErrorMessage err = message err) /\
      (JS.truthy (responseDetail err) = false ->
       JS.truthy (message err) = false ->
       uploadErrorMessage err = Some GENERIC_FAILURE)) /\
  (forall (onSuccess : bool) (st : ResumeUpload.State) (err : AxiosError),
      ResumeUpload.file (fst (ResumeUpload.handleUpload_settled onSuccess (Rejected err) st))
        = ResumeUpload.file st) /\
  (forall (st : ResumeUploadPage.State) (err : AxiosError),
      ResumeUploadPage.file (fst (ResumeUploadPage.handleUpload_settled (Rejected err) st)) = ResumeUploadPage.file st).
Proof.
  split; [|split; [|split; [|split]]].
  - crush_state.
  - crush_state.
  - intros err. split; [apply truthy_uploadErrorMessage|].
    apply uploadErrorMessage_priority.
  - crush_state.
  - crush_state.
Qed.

Lemma failed_upload_keeps_file_witness :
  let cv := {| name := JS.utf16 "cv.pdf"; size := 1000 |} in
  let st := ResumeUpload.mkState (Some cv) false None false in
  let err := {| response := Some {| data := Some {| detail := Some "Unreadable PDF" |} |};
                message := Some "Request failed with status code 422" |} in
  let failed := fst (ResumeUpload.handleUpload_settled true (Rejected err)
                       (fst (ResumeUpload.handleUpload st))) in
  ResumeUpload.file st = Some cv /\
  ResumeUpload.error failed = Some "Unreadable PDF" /\
  ResumeUpload.file failed = Some cv /\
  snd (ResumeUpload.handleUpload failed) = [ResumeUpload.Upload cv].
Proof.
  intros cv st err failed.
  destruct (proj1 failed_upload_keeps_file true st cv err eq_refl)
    as [_ [_ [_ [He [Hf [_ Hr]]]]]].
  split; [reflexivity|].
  split; [|split; [exact Hf | exact Hr]].
  exact (eq_trans He eq_refl).
Defined.

(** C10.  Whatever the outcome, the continuation of [handleUpload] ends
    by clearing [uploading]; after a rejected request the button is
    disabled only if no file is staged, so with a file staged a new
    submit goes out. *)
Theorem uploading_cleared_when_settled :
  (forall (onSuccess : bool) (outcome : Settled ResponseData) (st : ResumeUpload.State),
      ResumeUpload.uploading (fst (ResumeUpload.handleUpload_settled onSuccess outcome st)) = false) /\
  (forall (outcome : Settled ResponseData) (st : ResumeUploadPage.State),
      ResumeUploadPage.uploading (fst (ResumeUploadPage.handleUpload_settled outcome st)) = false) /\
  (forall (onSuccess : bool) (err : AxiosError) (st : ResumeUpload.State),
      ResumeUpload.uploadDisabled (fst (ResumeUpload.handleUpload_settled onSuccess (Rejected err) st))
        = negb (isSome (ResumeUpload.file st))) /\
  (forall (err : AxiosError) (st : ResumeUploadPage.State),
      ResumeUploadPage.uploadDisabled (fst (ResumeUploadPage.handleUpload_settled (Rejected err) st))
        = negb (isSome (ResumeUploadPage.file st))) /\
  (forall (onSuccess : bool) (err : AxiosError) (st : ResumeUpload.State) (f : File),
      ResumeUpload.file st = Some f ->
      snd (ResumeUpload.clickUpload (fst (ResumeUpload.handleUpload_settled onSuccess (Rejected err) st)))
        = [ResumeUpload.Upload f]) /\
  (forall (err : AxiosError) (st : ResumeUploadPage.State) (f : File),
      ResumeUploadPage.file st = Some f -> ResumeUploadPage.result st = None ->
      snd (ResumeUploadPage.clickUpload (fst (ResumeUploadPage.handleUpload_settled (Rejected err) st)))
        = [ResumeUploadPage.Upload f]).
Proof.
  split; [|split; [|split; [|split; [|split]]]].
  - intros onSuccess [d|err] [f u e g]; reflexivity.
  - intros [d|err] [f u r e g]; reflexivity.
  - intros onSuccess err [f u e g]. unfold ResumeUpload.uploadDisabled. cbn.
    apply orb_false_r.
  - intros err [f u r e g]. unfold ResumeUploadPage.uploadDisabled. cbn.
    apply orb_false_r.
  - crush_state.
  - crush_state.
Qed.

Lemma uploading_cleared_when_settled_witness :
  let cv := {| name := JS.utf16 "cv.pdf"; size := 1000 |} in
  let stuck := ResumeUpload.mkState (Some cv) true None false in
  let err := {| response := None; message := Some "Network Error" |} in
  ResumeUpload.file stuck = Some cv /\
  snd (ResumeUpload.clickUpload (fst (ResumeUpload.handleUpload_settled true (Rejected err) stuck)))
    = [ResumeUpload.Upload cv].
Proof.
  cbv zeta. split; [reflexivity|].
  apply (proj1 (proj2 (proj2 (proj2 (proj2 uploading_cleared_when_settled))))).
  reflexivity.
Defined.

(** ** The dashboard *)


(** Every status of the enumeration resolves to its rank. *)
Lemma currentStepIndex_enumerated (k : string) (n : Z) :
  In (k, n) Dashboard.statusToStepMap -> Dashboard.currentStepIndex (Dashboard.Str k) = Dashboard.VNumber n.
Proof.
  unfold Dashboard.statusToStepMap. simpl.
  intros [H|[H|[H|[H|[H|[H|[]]]]]]]; injection H as <- <-; reflexivity.
Qed.

(** A status that names neither an own property of the map nor a member
    of [Object.prototype] resolves to 0; so do [null] and a missing
    status. *)
Lemma currentStepIndex_default (s : Dashboard.Status) :
  Dashboard.ownProperty (Dashboard.propertyKey s) Dashboard.statusToStepMap = None ->
  JS.includes String.eqb Dashboard.Object_prototype (Dashboard.propertyKey s) = false ->
  Dashboard.currentStepIndex s = Dashboard.VNumber 0.
Proof.
  intros Hown Hproto. unfold Dashboard.currentStepIndex, Dashboard.getProperty.
  now rewrite Hown, Hproto.
Qed.

(** The resolved index, case by case. *)
Lemma currentStepIndex_cases (s : Dashboard.Status) :
  Dashboard.currentStepIndex s =
    match Dashboard.ownProperty (Dashboard.propertyKey s) Dashboard.statusToStepMap with
    | Some n => Dashboard.VNumber n
    | None =>
        if JS.includes String.eqb Dashboard.Object_prototype (Dashboard.propertyKey s)
        then Dashboard.VInherited (Dashboard.propertyKey s)
        else Dashboard.VNumber 0
    end.
Proof.
  unfold Dashboard.currentStepIndex, Dashboard.getProperty.
  destruct (Dashboard.ownProperty _ _) as [n|].
  - simpl. destruct (Z.eqb_spec n 0); simpl; congruence.
  - destruct (JS.includes _ _ _); reflexivity.
Qed.

Lemma currentStepIndex_absent :
  Dashboard.currentStepIndex Dashboard.Undefined = Dashboard.VNumber 0 /\
  Dashboard.currentStepIndex Dashboard.Null = Dashboard.VNumber 0 /\
  Dashboard.currentStepIndex (Dashboard.Str "") = Dashboard.VNumber 0.
Proof. repeat split. Qed.

(** C6 at the status 'toString', which is not one of the six enumerated
    statuses: the lookup in the object literal finds the member inherited
    from [Object.prototype], a truthy value, so the [|| 0] default is not
    taken and the resolved index is not 0. *)
Theorem currentStepIndex_inherited_member :
  Dashboard.ownProperty "toString" Dashboard.statusToStepMap = None /\
  Dashboard.getProperty "toString" = Dashboard.VInherited "toString" /\
  Dashboard.currentStepIndex (Dashboard.Str "toString")
    = Dashboard.VInherited "toString" /\
  Dashboard.currentStepIndex (Dashboard.Str "toString") <> Dashboard.VNumber 0.
Proof. repeat split. discriminate. Qed.

(** C2, as stated, does not hold: for the unrecognized status "on_hold"
    the first fetch resolves step 0 and leaves the upload panel hidden. *)
Lemma unrecognized_status_hides_upload :
  let u := {| Dashboard.userName := Some "Ada"; Dashboard.status := Dashboard.Str "on_hold" |} in
  let st := fst (Dashboard.fetchUserData_settled (Fulfilled u) Dashboard.initial) in
  Dashboard.currentStep st = Dashboard.VNumber 0 /\
  Dashboard.showResumeUpload st = false /\
  ~ (forall u : Dashboard.User,
        let st := fst (Dashboard.fetchUserData_settled (Fulfilled u) Dashboard.initial) in
        Dashboard.showResumeUpload st = true <-> Dashboard.currentStep st = Dashboard.VNumber 0).
Proof.
  cbn. repeat split.
  intros H.
  specialize (H {| Dashboard.userName := Some "Ada"; Dashboard.status := Dashboard.Str "on_hold" |}).
  cbn in H. destruct H as [_ H]. specialize (H eq_refl). discriminate H.
Qed.

Lemma statusIs_true (s : Dashboard.Status) (literal : string) :
  Dashboard.statusIs s literal = true <-> s = Dashboard.Str literal.
Proof.
  destruct s as [| |k]; simpl; try (split; discriminate).
  destruct (String.eqb_spec k literal); split; congruence.
Qed.

Lemma statusFalsy_true (s : Dashboard.Status) :
  Dashboard.statusFalsy s = true <-> s = Dashboard.Undefined \/ s = Dashboard.Null \/ s = Dashboard.Str "".
Proof.
  destruct s as [| |k]; simpl.
  - tauto.
  - tauto.
  - destruct (String.eqb_spec k ""); split; try subst; auto.
    + discriminate.
    + intros [H|[H|H]]; congruence.
Qed.

(** C2, amended.  A fetched user raises the upload call-to-action exactly
    when the status is missing, null, empty or 'registered' (the flag is
    only ever raised by the fetch, never lowered); each of those statuses
    resolves to step 0.  Resolving to step 0 is not enough for the
    call-to-action. *)
Theorem upload_step_for_missing_or_registered :
  forall (st : Dashboard.State) (u : Dashboard.User),
    let st' := fst (Dashboard.fetchUserData_settled (Fulfilled u) st) in
    let wanted := Dashboard.statusFalsy (Dashboard.status u) || Dashboard.statusIs (Dashboard.status u) "registered" in
    Dashboard.showResumeUpload st' = Dashboard.showResumeUpload st || wanted /\
    Dashboard.currentStep st' = Dashboard.currentStepIndex (Dashboard.status u) /\
    (wanted = true <->
     Dashboard.status u = Dashboard.Undefined \/ Dashboard.status u = Dashboard.Null \/
     Dashboard.status u = Dashboard.Str "" \/ Dashboard.status u = Dashboard.Str "registered") /\
    (wanted = true -> Dashboard.currentStep st' = Dashboard.VNumber 0) /\
    (Dashboard.showResumeUpload st = false ->
     Dashboard.showResumeUpload st' = true -> Dashboard.currentStep st' = Dashboard.VNumber 0).
Proof.
  intros st u st' wanted.
  assert (Hw : wanted = true <->
     Dashboard.status u = Dashboard.Undefined \/ Dashboard.status u = Dashboard.Null \/
     Dashboard.status u = Dashboard.Str "" \/ Dashboard.status u = Dashboard.Str "registered").
  { unfold wanted. rewrite orb_true_iff, statusFalsy_true, statusIs_true. tauto. }
  assert (Hshow : Dashboard.showResumeUpload st' = Dashboard.showResumeUpload st || wanted).
  { subst st' wanted. destruct st as [usr l e c show]; cbn.
    destruct (Dashboard.statusFalsy (Dashboard.status u) || Dashboard.statusIs (Dashboard.status u) "registered");
      cbn; [now rewrite orb_true_r | now rewrite orb_false_r]. }
  assert (Hstep : Dashboard.currentStep st' = Dashboard.currentStepIndex (Dashboard.status u)).
  { subst st' wanted. destruct st as [usr l e c show]; cbn.
    destruct (Dashboard.statusFalsy (Dashboard.status u) || Dashboard.statusIs (Dashboard.status u) "registered");
      reflexivity. }
  assert (Hzero : wanted = true -> Dashboard.currentStep st' = Dashboard.VNumber 0).
  { intros H. rewrite Hstep. apply Hw in H.
    destruct H as [H|[H|[H|H]]]; rewrite H; reflexivity. }
  repeat split; try assumption; try (now apply Hw).
  intros Hoff Hon. apply Hzero. rewrite Hshow, Hoff in Hon. exact Hon.
Qed.

Lemma upload_step_for_missing_or_registered_witness :
  let u := {| Dashboard.userName := Some "Ada"; Dashboard.status := Dashboard.Str "registered" |} in
  let st' := fst (Dashboard.fetchUserData_settled (Fulfilled u) Dashboard.initial) in
  Dashboard.showResumeUpload Dashboard.initial = false /\
  Dashboard.showResumeUpload st' = true /\
  Dashboard.currentStep st' = Dashboard.VNumber 0.
Proof.
  intros u st'. split; [reflexivity|]. split; [reflexivity|].
  apply (proj2 (proj2 (proj2 (proj2
           (upload_step_for_missing_or_registered Dashboard.initial u)))));
    reflexivity.
Defined.

(** The buttons of a step are rendered only in the current step, and
    which button it is depends on the index alone. *)
Lemma stepContent_table (index k : Z) :
  Dashboard.stepContent index (Dashboard.VNumber k) =
    if index =? k then
      if k =? 1 then [Dashboard.scheduleCall]
      else if k =? 2 then [Dashboard.takeAssessment]
      else if k =? 3 then [Dashboard.uploadResults]
      else if k =? 4 then [Dashboard.scheduleFollowUp]
      else []
    else [].
Proof.
  unfold Dashboard.stepContent, Dashboard.isCurrent.
  destruct (Z.eqb_spec index k) as [->|Hne]; [|reflexivity].
  cbn [andb].
  destruct (Z.eqb_spec k 1) as [->|H1]; [reflexivity|].
  destruct (Z.eqb_spec k 2) as [->|H2]; [reflexivity|].
  destruct (Z.eqb_spec k 3) as [->|H3]; [reflexivity|].
  destruct (Z.eqb_spec k 4) as [->|H4]; reflexivity.
Qed.

(** C9.  The stepper offers, at current step 1, the 'Schedule Call' link
    of the step 'Schedule intake call'; at 2 the 'Take Assessment' link;
    at 3 the 'Upload Results' button (no link target); at 4 the 'Schedule
    Follow-up' link; at 0 and at 5 nothing.  A user whose status is
    'completed_onboarding' is resolved as complete, at step 5, with no
    step-local action on screen. *)
Theorem step_actions_table :
  map Dashboard.label Dashboard.onboardingSteps
    = [ "Create profile, upload resume"; "Schedule intake call";
        "Complete Clifton Strengths assessment";
        "Upload Clifton Strengths results"; "Schedule follow-up call" ] /\
  Dashboard.stepperActions (Dashboard.VNumber 0) = [] /\
  Dashboard.stepperActions (Dashboard.VNumber 1)
    = [ {| Dashboard.caption := "Schedule Call";
           Dashboard.href := Some "https://calendly.com/your-link" |} ] /\
  Dashboard.stepperActions (Dashboard.VNumber 2)
    = [ {| Dashboard.caption := "Take Assessment";
           Dashboard.href := Some "https://www.gallup.com/cliftonstrengths" |} ] /\
  Dashboard.stepperActions (Dashboard.VNumber 3)
    = [ {| Dashboard.caption := "Upload Results"; Dashboard.href := None |} ] /\
  Dashboard.stepperActions (Dashboard.VNumber 4)
    = [ {| Dashboard.caption := "Schedule Follow-up";
           Dashboard.href := Some "https://calendly.com/your-link" |} ] /\
  Dashboard.stepperActions (Dashboard.VNumber 5) = [] /\
  (forall k : Z,
      Dashboard.stepContent k (Dashboard.VNumber k)
        = Dashboard.stepperActions (Dashboard.VNumber k)) /\
  (forall (st : Dashboard.State) (n : option string),
      let u := {| Dashboard.userName := n;
                  Dashboard.status := Dashboard.Str "completed_onboarding" |} in
      let st' := fst (Dashboard.fetchUserData_settled (Fulfilled u) st) in
      Dashboard.isOnboardingComplete st' = true /\
      Dashboard.currentStep st' = Dashboard.VNumber 5 /\
      Dashboard.stepperActions (Dashboard.currentStep st') = [] /\
      Dashboard.actionsShown st' = []).
Proof.
  do 7 (split; [reflexivity|]). split.
  - intros k. unfold Dashboard.stepperActions, Dashboard.onboardingSteps.
    cbn [Dashboard.stepperFrom]. rewrite !stepContent_table.
    rewrite Z.eqb_refl. cbn [Z.add Pos.add Pos.succ].
    destruct (Z.eqb_spec k 1) as [->|H1]; [reflexivity|].
    destruct (Z.eqb_spec k 2) as [->|H2]; [reflexivity|].
    destruct (Z.eqb_spec k 3) as [->|H3]; [reflexivity|].
    destruct (Z.eqb_spec k 4) as [->|H4]; [reflexivity|].
    destruct (Z.eqb_spec 0 k) as [<-|H0]; [reflexivity|].
    destruct (Z.eqb_spec 1 k); [congruence|].
    destruct (Z.eqb_spec 2 k); [congruence|].
    destruct (Z.eqb_spec 3 k); [congruence|].
    destruct (Z.eqb_spec 4 k); [congruence|].
    reflexivity.
  - intros [usr l e c show] n. unfold Dashboard.actionsShown, Dashboard.render.
    cbn. repeat split.
    destruct (negb (String.eqb e "")); reflexivity.
Qed.

(** ** Upload accepted, status update refused *)


Lemma panel_excludes_alert (d : Dashboard.State) :
  Dashboard.uploadPanelShown d = true -> Dashboard.errorAlertShown d = false.
Proof.
  unfold Dashboard.uploadPanelShown, Dashboard.errorAlertShown, Dashboard.render.
  destruct (Dashboard.loading d); [discriminate|].
  destruct (negb (String.eqb (Dashboard.error d) "")); [discriminate|reflexivity].
Qed.

(** C3, as stated, does not hold: with 'cv.pdf' staged by a registered
    user, an accepted upload followed by a refused status update leaves
    no error on screen at all, neither in the dashboard nor in the
    form. *)
Lemma refused_status_update_not_surfaced :
  let cv := {| name := JS.utf16 "cv.pdf"; size := 1000 |} in
  let ada := {| Dashboard.userName := Some "Ada"; Dashboard.status := Dashboard.Str "registered" |} in
  let parsed := {| candidate := {| cname := "Ada"; email := None; location := None;
                                   skills := ["Rocq"]; has_embeddings := true |} |} in
  let refused := {| response := Some {| data := Some {| detail := Some "Forbidden" |} |};
                    message := Some "Request failed with status code 403" |} in
  let w := Portal.mkWorld (Dashboard.mkState (Some ada) false "" (Dashboard.VNumber 0) true)
                     (ResumeUpload.mkState (Some cv) false None false) in
  readyToSubmit w cv /\
  Portal.errorSurfaced (fst (Portal.run w (acceptedThenRefused parsed refused))) = false /\
  ~ (forall (w : Portal.World) (f : File) (d : ResponseData) (err : AxiosError),
        readyToSubmit w f ->
        Portal.errorSurfaced (fst (Portal.run w (acceptedThenRefused d err))) = true).
Proof.
  cbv zeta. split; [repeat split|]. split; [reflexivity|].
  intros H.
  specialize (H (Portal.mkWorld
                   (Dashboard.mkState (Some {| Dashboard.userName := Some "Ada";
                                       Dashboard.status := Dashboard.Str "registered" |})
                              false "" (Dashboard.VNumber 0) true)
                   (ResumeUpload.mkState (Some {| name := JS.utf16 "cv.pdf"; size := 1000 |})
                               false None false))
                {| name := JS.utf16 "cv.pdf"; size := 1000 |}
                {| candidate := {| cname := "Ada"; email := None; location := None;
                                   skills := []; has_embeddings := true |} |}
                {| response := None; message := None |}).
  assert (R : Portal.errorSurfaced
                (fst (Portal.run
                   (Portal.mkWorld
                      (Dashboard.mkState (Some {| Dashboard.userName := Some "Ada";
                                          Dashboard.status := Dashboard.Str "registered" |})
                                 false "" (Dashboard.VNumber 0) true)
                      (ResumeUpload.mkState (Some {| name := JS.utf16 "cv.pdf"; size := 1000 |})
                                  false None false))
                   (acceptedThenRefused
                      {| candidate := {| cname := "Ada"; email := None;
                                         location := None; skills := [];
                                         has_embeddings := true |} |}
                      {| response := None; message := None |}))) = false)
    by reflexivity.
  rewrite H in R; [discriminate R|]. repeat split.
Qed.

(** C3, amended.  When the upload is accepted and the following
    [updateStatus('uploaded_resume')] is refused, the refusal is written
    to the console under 'Failed to update status:' and nowhere else: the
    dashboard state is untouched, no error alert is on screen (so the
    upload-failure alert is not shown either), the status update was
    requested once and is not requested again, no second upload goes out,
    and the form, still on screen, has no file staged. *)
Theorem refused_status_update_only_logged :
  forall (w : Portal.World) (f : File) (d : ResponseData) (err : AxiosError),
    readyToSubmit w f ->
    let w' := fst (Portal.run w (acceptedThenRefused d err)) in
    let fxs := snd (Portal.run w (acceptedThenRefused d err)) in
    fxs = [ Portal.UploadCall f;
            Portal.Dash (Dashboard.UpdateStatus "uploaded_resume");
            Portal.Dash (Dashboard.ConsoleError (Some "Failed to update status:") err) ] /\
    List.length (filter Portal.isStatusUpdate fxs) = 1%nat /\
    List.length (filter Portal.isUploadCall fxs) = 1%nat /\
    Portal.dash w' = Portal.dash w /\
    Portal.errorSurfaced w' = false /\
    ResumeUpload.error (Portal.upload w') = None /\
    ResumeUpload.file (Portal.upload w') = None /\
    ResumeUpload.uploading (Portal.upload w') = false /\
    Dashboard.uploadPanelShown (Portal.dash w') = true.
Proof.
  intros [dsh [fl up er dr]] f d err [Hpanel [Hfile Hup]] w' fxs.
  cbn in Hpanel, Hfile, Hup. subst fl up.
  assert (Hrun : Portal.run (Portal.mkWorld dsh (ResumeUpload.mkState (Some f) false er dr))
                       (acceptedThenRefused d err)
                 = (Portal.mkWorld dsh (ResumeUpload.mkState None false None dr),
                    [ Portal.UploadCall f;
                      Portal.Dash (Dashboard.UpdateStatus "uploaded_resume");
                      Portal.Dash (Dashboard.ConsoleError (Some "Failed to update status:") err) ])).
  { unfold acceptedThenRefused, Portal.run, Portal.step.
    cbn [Portal.dash Portal.upload]. rewrite Hpanel.
    cbn. rewrite Hpanel. cbn. unfold Portal.remount. rewrite Hpanel.
    reflexivity. }
  subst w' fxs. rewrite Hrun. cbn [fst snd Portal.dash Portal.upload].
  repeat split; try assumption.
  unfold Portal.errorSurfaced. cbn.
  rewrite (panel_excludes_alert dsh Hpanel), Hpanel. reflexivity.
Qed.

Lemma refused_status_update_only_logged_witness :
  let cv := {| name := JS.utf16 "cv.pdf"; size := 1000 |} in
  let ada := {| Dashboard.userName := Some "Ada"; Dashboard.status := Dashboard.Str "registered" |} in
  let parsed := {| candidate := {| cname := "Ada"; email := None; location := None;
                                   skills := ["Rocq"]; has_embeddings := true |} |} in
  let refused := {| response := None; message := Some "Network Error" |} in
  let w := Portal.mkWorld (Dashboard.mkState (Some ada) false "" (Dashboard.VNumber 0) true)
                     (ResumeUpload.mkState (Some cv) false None false) in
  readyToSubmit w cv /\
  snd (Portal.run w (acceptedThenRefused parsed refused))
    = [ Portal.UploadCall cv;
        Portal.Dash (Dashboard.UpdateStatus "uploaded_resume");
        Portal.Dash (Dashboard.ConsoleError (Some "Failed to update status:") refused) ].
Proof.
  intros cv ada parsed refused w.
  assert (R : readyToSubmit w cv) by (repeat split).
  split; [exact R|].
  exact (proj1 (refused_status_update_only_logged w cv parsed refused R)).
Defined.

(* ================================================================== *)
(** * Further properties of the upload form *)
(* ================================================================== *)

Lemma handleFileSelect_file (candidate : option File) (st : ResumeUpload.State) :
  ResumeUpload.file (ResumeUpload.handleFileSelect candidate st)
  = if valid (validateFile candidate) then candidate else ResumeUpload.file st.
Proof.
  unfold ResumeUpload.handleFileSelect.
  destruct (valid (validateFile candidate)); destruct st; reflexivity.
Qed.

Lemma page_handleFileSelect_file (candidate : option File)
    (st : ResumeUploadPage.State) :
  ResumeUploadPage.file (ResumeUploadPage.handleFileSelect candidate st)
  = if valid (validateFile candidate) then candidate
    else ResumeUploadPage.file st.
Proof.
  unfold ResumeUploadPage.handleFileSelect.
  destruct (valid (validateFile candidate)); destruct st; reflexivity.
Qed.

Lemma stagedValid_select (candidate staged : option File) :
  stagedValid staged ->
  stagedValid (if valid (validateFile candidate) then candidate else staged).
Proof.
  intros H. destruct (valid (validateFile candidate)) eqn:E; [|exact H].
  destruct candidate as [f|]; [exact E | exact I].
Qed.

Lemma step_stagedValid (onSuccess : bool) (st : ResumeUpload.State)
    (e : ResumeUpload.Event) :
  stagedValid (ResumeUpload.file st) ->
  stagedValid (ResumeUpload.file (fst (ResumeUpload.step onSuccess st e))) /\
  (forall f, In (ResumeUpload.Upload f) (snd (ResumeUpload.step onSuccess st e)) ->
             valid (validateFile (Some f)) = true).
Proof.
  intros Hst. destruct e as [c|t|fs| | | |o]; cbn [ResumeUpload.step fst snd].
  - split; [|intros f []]. rewrite handleFileSelect_file.
    now apply stagedValid_select.
  - split; [|intros f []]. unfold ResumeUpload.handleDrag.
    destruct (_ || _); [destruct st; exact Hst|].
    destruct (String.eqb t "dragleave"); destruct st; exact Hst.
  - split; [|intros f []]. unfold ResumeUpload.handleDrop.
    destruct fs as [|f0 rest]; [destruct st; exact Hst|].
    rewrite handleFileSelect_file. apply stagedValid_select.
    destruct st; exact Hst.
  - unfold ResumeUpload.clickUpload.
    destruct (ResumeUpload.uploadDisabled st); [split; [exact Hst|intros f []]|].
    unfold ResumeUpload.handleUpload.
    destruct st as [[f0|] u er dr]; cbn in *.
    + split; [exact Hst|]. intros f [[= <-]|[]]. exact Hst.
    + split; [exact I|intros f []].
  - split; [|intros f []]. unfold ResumeUpload.clickDelete.
    destruct st as [[f0|] u er dr]; cbn; [exact I|exact I].
  - unfold ResumeUpload.handleUpload.
    destruct st as [[f0|] u er dr]; cbn in *.
    + split; [exact Hst|]. intros f [[= <-]|[]]. exact Hst.
    + split; [exact I|intros f []].
  - destruct o as [d|err]; destruct st as [fl u er dr]; cbn in *.
    + split; [exact I|]. destruct onSuccess; intros f H; cbn in H.
      * destruct H as [H|[]]. discriminate H.
      * destruct H.
    + split; [exact Hst|intros f []].
Qed.

Lemma page_step_stagedValid (st : ResumeUploadPage.State)
    (e : ResumeUploadPage.Event) :
  stagedValid (ResumeUploadPage.file st) ->
  stagedValid (ResumeUploadPage.file (fst (ResumeUploadPage.step st e))) /\
  (forall f, In (ResumeUploadPage.Upload f) (snd (ResumeUploadPage.step st e)) ->
             valid (validateFile (Some f)) = true).
Proof.
  intros Hst. destruct e as [c|t|fs| | | | |o]; cbn [ResumeUploadPage.step fst snd].
  - split; [|intros f []]. rewrite page_handleFileSelect_file.
    now apply stagedValid_select.
  - split; [|intros f []]. unfold ResumeUploadPage.handleDrag.
    destruct (_ || _); [destruct st; exact Hst|].
    destruct (String.eqb t "dragleave"); destruct st; exact Hst.
  - split; [|intros f []]. unfold ResumeUploadPage.handleDrop.
    destruct fs as [|f0 rest]; [destruct st; exact Hst|].
    rewrite page_handleFileSelect_file. apply stagedValid_select.
    destruct st; exact Hst.
  - unfold ResumeUploadPage.clickUpload.
    destruct (_ && _); [|split; [exact Hst|intros f []]].
    unfold ResumeUploadPage.handleUpload.
    destruct st as [[f0|] u r er dr]; cbn in *.
    + split; [exact Hst|]. intros f [[= <-]|[]]. exact Hst.
    + split; [exact I|intros f []].
  - split; [|intros f []]. unfold ResumeUploadPage.clickDelete.
    destruct (_ && _); [destruct st; exact I | exact Hst].
  - split; [|intros f []]. unfold ResumeUploadPage.clickUploadAnother.
    destruct (ResumeUploadPage.formShown st); [exact Hst | destruct st; exact I].
  - unfold ResumeUploadPage.handleUpload.
    destruct st as [[f0|] u r er dr]; cbn in *.
    + split; [exact Hst|]. intros f [[= <-]|[]]. exact Hst.
    + split; [exact I|intros f []].
  - destruct o as [d|err]; destruct st as [fl u r er dr]; cbn in *.
    + split; [exact I|intros f []].
    + split; [exact Hst|intros f []].
Qed.

(** X1.  Validation comes before the network: whatever happens to the
    form (picking, dropping, deleting, submitting, direct calls of the
    handler, settlements, in any order), a staged file has passed
    [validateFile], and so has every file handed to the upload
    transport.  This holds for both revisions, from any state whose
    staged file, if any, is valid; the initial state is one. *)
Theorem staged_file_always_valid :
  (forall (onSuccess : bool) (es : list ResumeUpload.Event) (st : ResumeUpload.State),
      stagedValid (ResumeUpload.file st) ->
      stagedValid (ResumeUpload.file (fst (ResumeUpload.run onSuccess st es))) /\
      (forall f, In (ResumeUpload.Upload f) (snd (ResumeUpload.run onSuccess st es)) ->
                 valid (validateFile (Some f)) = true)) /\
  (forall (es : list ResumeUploadPage.Event) (st : ResumeUploadPage.State),
      stagedValid (ResumeUploadPage.file st) ->
      stagedValid (ResumeUploadPage.file (fst (ResumeUploadPage.run st es))) /\
      (forall f, In (ResumeUploadPage.Upload f) (snd (ResumeUploadPage.run st es)) ->
                 valid (validateFile (Some f)) = true)) /\
  stagedValid (ResumeUpload.file ResumeUpload.initial) /\
  stagedValid (ResumeUploadPage.file ResumeUploadPage.initial).
Proof.
  split; [|split; [|split; exact I]].
  - intros onSuccess es. induction es as [|e es IH]; intros st Hst.
    + split; [exact Hst|intros f []].
    + cbn [ResumeUpload.run].
      destruct (step_stagedValid onSuccess st e Hst) as [H1 H2].
      destruct (ResumeUpload.step onSuccess st e) as [st1 fx1]; cbn [fst snd] in *.
      destruct (IH st1 H1) as [H3 H4].
      destruct (ResumeUpload.run onSuccess st1 es) as [st2 fx2]; cbn [fst snd] in *.
      split; [exact H3|]. intros f Hin. apply in_app_or in Hin as [Hin|Hin]; auto.
  - intros es. induction es as [|e es IH]; intros st Hst.
    + split; [exact Hst|intros f []].
    + cbn [ResumeUploadPage.run].
      destruct (page_step_stagedValid st e Hst) as [H1 H2].
      destruct (ResumeUploadPage.step st e) as [st1 fx1]; cbn [fst snd] in *.
      destruct (IH st1 H1) as [H3 H4].
      destruct (ResumeUploadPage.run st1 es) as [st2 fx2]; cbn [fst snd] in *.
      split; [exact H3|]. intros f Hin. apply in_app_or in Hin as [Hin|Hin]; auto.
Qed.

Lemma staged_file_always_valid_witness :
  let notes := {| name := JS.utf16 "notes.txt"; size := 10 |} in
  let cv := {| name := JS.utf16 "cv.pdf"; size := 1000 |} in
  let es := [ ResumeUpload.Drop [notes; cv]; ResumeUpload.ClickUpload;
              ResumeUpload.FileSelect (Some cv); ResumeUpload.InvokeHandleUpload ] in
  stagedValid (ResumeUpload.file ResumeUpload.initial) /\
  snd (ResumeUpload.run true ResumeUpload.initial es) = [ResumeUpload.Upload cv] /\
  (forall f, In (ResumeUpload.Upload f) (snd (ResumeUpload.run true ResumeUpload.initial es)) ->
             valid (validateFile (Some f)) = true).
Proof.
  intros notes cv es. split; [exact I|]. split; [reflexivity|].
  apply (proj1 staged_file_always_valid true es ResumeUpload.initial). exact I.
Defined.

Lemma session_step_inStep (onSuccess : bool) (s : UploadSession.Session)
    (e : ResumeUpload.Event) :
  UploadSession.fromScreen e = true ->
  inStep (ResumeUpload.uploading (UploadSession.form s)) (UploadSession.pending s) ->
  let s' := fst (UploadSession.step onSuccess s e) in
  inStep (ResumeUpload.uploading (UploadSession.form s')) (UploadSession.pending s').
Proof.
  intros He Hinv.
  destruct s as [[fl u er dr] p]. cbn in Hinv.
  destruct e as [c|t|fs| | | |o]; try discriminate He; cbn.
  - unfold ResumeUpload.handleFileSelect.
    destruct (negb _); cbn; rewrite Nat.add_0_r; exact Hinv.
  - unfold ResumeUpload.handleDrag.
    destruct (_ || _); cbn; [rewrite Nat.add_0_r; exact Hinv|].
    destruct (String.eqb t "dragleave"); cbn; rewrite Nat.add_0_r; exact Hinv.
  - unfold ResumeUpload.handleDrop. destruct fs as [|f0 rest]; cbn.
    + rewrite Nat.add_0_r; exact Hinv.
    + unfold ResumeUpload.handleFileSelect.
      destruct (negb _); cbn; rewrite Nat.add_0_r; exact Hinv.
  - unfold ResumeUpload.clickUpload, ResumeUpload.uploadDisabled. cbn.
    destruct fl as [f0|]; cbn.
    + destruct u; cbn.
      * rewrite Nat.add_0_r; exact Hinv.
      * destruct Hinv as [[H _]|[_ ->]]; [discriminate H|]. left. split; reflexivity.
    + rewrite Nat.add_0_r; exact Hinv.
  - unfold ResumeUpload.clickDelete. destruct fl; cbn; rewrite Nat.add_0_r; exact Hinv.
  - destruct p as [|p]; cbn; [exact Hinv|].
    destruct Hinv as [[_ H]|[_ H]]; [|discriminate H].
    injection H as ->. destruct o; cbn; right; split; reflexivity.
Qed.

Lemma page_session_step_inStep (s : UploadPageSession.Session)
    (e : ResumeUploadPage.Event) :
  UploadPageSession.fromScreen e = true ->
  inStep (ResumeUploadPage.uploading (UploadPageSession.form s))
         (UploadPageSession.pending s) ->
  let s' := fst (UploadPageSession.step s e) in
  inStep (ResumeUploadPage.uploading (UploadPageSession.form s'))
         (UploadPageSession.pending s').
Proof.
  intros He Hinv.
  destruct s as [[fl u r er dr] p]. cbn in Hinv.
  destruct e as [c|t|fs| | | | |o]; try discriminate He; cbn.
  - unfold ResumeUploadPage.handleFileSelect.
    destruct (negb _); cbn; rewrite Nat.add_0_r; exact Hinv.
  - unfold ResumeUploadPage.handleDrag.
    destruct (_ || _); cbn; [rewrite Nat.add_0_r; exact Hinv|].
    destruct (String.eqb t "dragleave"); cbn; rewrite Nat.add_0_r; exact Hinv.
  - unfold ResumeUploadPage.handleDrop. destruct fs as [|f0 rest]; cbn.
    + rewrite Nat.add_0_r; exact Hinv.
    + unfold ResumeUploadPage.handleFileSelect.
      destruct (negb _); cbn; rewrite Nat.add_0_r; exact Hinv.
  - unfold ResumeUploadPage.clickUpload, ResumeUploadPage.uploadDisabled,
      ResumeUploadPage.formShown. cbn.
    destruct r as [d|]; cbn; [rewrite Nat.add_0_r; exact Hinv|].
    destruct fl as [f0|]; cbn.
    + destruct u; cbn.
      * rewrite Nat.add_0_r; exact Hinv.
      * destruct Hinv as [[H _]|[_ ->]]; [discriminate H|]. left. split; reflexivity.
    + rewrite Nat.add_0_r; exact Hinv.
  - unfold ResumeUploadPage.clickDelete, ResumeUploadPage.formShown. cbn.
    destruct r, fl; cbn; rewrite Nat.add_0_r; exact Hinv.
  - unfold ResumeUploadPage.clickUploadAnother, ResumeUploadPage.formShown. cbn.
    destruct r; cbn; rewrite Nat.add_0_r; exact Hinv.
  - destruct p as [|p]; cbn; [exact Hinv|].
    destruct Hinv as [[_ H]|[_ H]]; [|discriminate H].
    injection H as ->. destruct o; cbn; right; split; reflexivity.
Qed.

(** X2.  Single flight along a whole session: as long as the form is
    driven from the screen (any picking, dragging, dropping, deleting and
    clicking, with settlements arriving whenever a request is under way),
    at most one upload request is outstanding at any time, and
    [uploading] is set exactly while one is.  Both revisions. *)
Theorem at_most_one_upload_in_flight :
  (forall (onSuccess : bool) (es : list ResumeUpload.Event),
      forallb UploadSession.fromScreen es = true ->
      let s := fst (UploadSession.run onSuccess UploadSession.start es) in
      (UploadSession.pending s <= 1)%nat /\
      (ResumeUpload.uploading (UploadSession.form s) = true <->
       UploadSession.pending s = 1%nat)) /\
  (forall es : list ResumeUploadPage.Event,
      forallb UploadPageSession.fromScreen es = true ->
      let s := fst (UploadPageSession.run UploadPageSession.start es) in
      (UploadPageSession.pending s <= 1)%nat /\
      (ResumeUploadPage.uploading (UploadPageSession.form s) = true <->
       UploadPageSession.pending s = 1%nat)).
Proof.
  assert (Huse : forall u p, inStep u p ->
                   (p <= 1)%nat /\ (u = true <-> p = 1%nat)).
  { intros u p [[-> ->]|[-> ->]]; split; try lia; split; congruence. }
  split.
  - intros onSuccess es Hes. apply Huse.
    assert (G : forall s,
               inStep (ResumeUpload.uploading (UploadSession.form s))
                      (UploadSession.pending s) ->
               let s' := fst (UploadSession.run onSuccess s es) in
               inStep (ResumeUpload.uploading (UploadSession.form s'))
                      (UploadSession.pending s')).
    { induction es as [|e es IH]; intros s Hs; [exact Hs|].
      cbn in Hes. apply andb_true_iff in Hes as [He Hes].
      cbn [UploadSession.run].
      pose proof (session_step_inStep onSuccess s e He Hs) as H1.
      destruct (UploadSession.step onSuccess s e) as [s1 fx1]; cbn [fst] in H1.
      specialize (IH Hes s1 H1).
      destruct (UploadSession.run onSuccess s1 es) as [s2 fx2]. exact IH. }
    apply G. right. split; reflexivity.
  - intros es Hes. apply Huse.
    assert (G : forall s,
               inStep (ResumeUploadPage.uploading (UploadPageSession.form s))
                      (UploadPageSession.pending s) ->
               let s' := fst (UploadPageSession.run s es) in
               inStep (ResumeUploadPage.uploading (UploadPageSession.form s'))
                      (UploadPageSession.pending s')).
    { induction es as [|e es IH]; intros s Hs; [exact Hs|].
      cbn in Hes. apply andb_true_iff in Hes as [He Hes].
      cbn [UploadPageSession.run].
      pose proof (page_session_step_inStep s e He Hs) as H1.
      destruct (UploadPageSession.step s e) as [s1 fx1]; cbn [fst] in H1.
      specialize (IH Hes s1 H1).
      destruct (UploadPageSession.run s1 es) as [s2 fx2]. exact IH. }
    apply G. right. split; reflexivity.
Qed.

Lemma at_most_one_upload_in_flight_witness :
  let cv := {| name := JS.utf16 "cv.pdf"; size := 1000 |} in
  let es := [ ResumeUpload.FileSelect (Some cv); ResumeUpload.ClickUpload;
              ResumeUpload.ClickUpload; ResumeUpload.Drop [cv];
              ResumeUpload.ClickUpload ] in
  forallb UploadSession.fromScreen es = true /\
  UploadSession.pending (fst (UploadSession.run true UploadSession.start es)) = 1%nat /\
  (UploadSession.pending (fst (UploadSession.run true UploadSession.start es)) <= 1)%nat.
Proof.
  intros cv es. split; [reflexivity|]. split; [reflexivity|].
  apply (proj1 at_most_one_upload_in_flight true es). reflexivity.
Defined.

Lemma run_app (onSuccess : bool) (a b : list ResumeUpload.Event)
    (st : ResumeUpload.State) :
  ResumeUpload.run onSuccess st (a ++ b) =
    let r1 := ResumeUpload.run onSuccess st a in
    let r2 := ResumeUpload.run onSuccess (fst r1) b in
    (fst r2, (snd r1 ++ snd r2)%list).
Proof.
  revert st; induction a as [|e a IH]; intros st.
  - cbn. now destruct (ResumeUpload.run onSuccess st b).
  - cbn [app ResumeUpload.run].
    destruct (ResumeUpload.step onSuccess st e) as [st1 fx1].
    rewrite IH. cbv zeta.
    destruct (ResumeUpload.run onSuccess st1 a) as [st2 fx2]. cbn [fst snd].
    destruct (ResumeUpload.run onSuccess st2 b) as [st3 fx3]. cbn [fst snd].
    now rewrite app_assoc.
Qed.

(** While [uploading] is set, nothing the user does with the form reaches
    the network or clears the flag. *)
Lemma user_actions_while_uploading (onSuccess : bool)
    (mid : list ResumeUpload.Event) (st : ResumeUpload.State) :
  ResumeUpload.uploading st = true ->
  forallb UploadSession.userAction mid = true ->
  snd (ResumeUpload.run onSuccess st mid) = [] /\
  ResumeUpload.uploading (fst (ResumeUpload.run onSuccess st mid)) = true.
Proof.
  revert st; induction mid as [|e mid IH]; intros st Hu Hmid.
  - split; [reflexivity|exact Hu].
  - cbn in Hmid. apply andb_true_iff in Hmid as [He Hmid].
    cbn [ResumeUpload.run].
    assert (Hstep : snd (ResumeUpload.step onSuccess st e) = [] /\
                    ResumeUpload.uploading (fst (ResumeUpload.step onSuccess st e)) = true).
    { destruct st as [fl u er dr]; cbn in Hu; subst u.
      destruct e as [c|t|fs| | | |o]; try discriminate He; cbn.
      - unfold ResumeUpload.handleFileSelect. destruct (negb _); split; reflexivity.
      - unfold ResumeUpload.handleDrag. destruct (_ || _); [split; reflexivity|].
        destruct (String.eqb t "dragleave"); split; reflexivity.
      - unfold ResumeUpload.handleDrop. destruct fs; [split; reflexivity|].
        unfold ResumeUpload.handleFileSelect. destruct (negb _); split; reflexivity.
      - unfold ResumeUpload.clickUpload, ResumeUpload.uploadDisabled. cbn.
        rewrite orb_true_r. split; reflexivity.
      - unfold ResumeUpload.clickDelete. destruct fl; split; reflexivity. }
    destruct (ResumeUpload.step onSuccess st e) as [st1 fx1]; cbn [fst snd] in Hstep.
    destruct Hstep as [-> Hu1].
    destruct (IH st1 Hu1 Hmid) as [Hfx Hu2].
    destruct (ResumeUpload.run onSuccess st1 mid) as [st2 fx2]; cbn [fst snd] in *.
    subst fx2. split; [reflexivity|exact Hu2].
Qed.

(** X3.  A request keeps the file it was started with.  Between the
    submit and the settlement nothing the user does with the form
    (picking or dropping other files, deleting, clicking the button)
    issues another request.  When the request is accepted the form ends
    with nothing staged, so a file picked in the meantime is lost; when
    it is refused the form keeps whatever the user left staged and shows
    the reason. *)
Theorem request_keeps_its_file :
  forall (onSuccess : bool) (st : ResumeUpload.State) (f : File)
         (mid : list ResumeUpload.Event) (outcome : Settled ResponseData),
    ResumeUpload.file st = Some f ->
    ResumeUpload.uploading st = false ->
    forallb UploadSession.userAction mid = true ->
    let started := fst (ResumeUpload.clickUpload st) in
    let meanwhile := fst (ResumeUpload.run onSuccess started mid) in
    let r := ResumeUpload.run onSuccess st
               (ResumeUpload.ClickUpload :: mid ++ [ResumeUpload.UploadSettled outcome]) in
    filter ResumeUpload.isUpload (snd r) = [ResumeUpload.Upload f] /\
    ResumeUpload.uploading (fst r) = false /\
    match outcome with
    | Fulfilled d =>
        ResumeUpload.file (fst r) = None /\
        ResumeUpload.error (fst r) = ResumeUpload.error meanwhile /\
        snd r = ResumeUpload.Upload f
                  :: (if onSuccess then [ResumeUpload.OnSuccess d] else [])
    | Rejected err =>
        ResumeUpload.file (fst r) = ResumeUpload.file meanwhile /\
        ResumeUpload.error (fst r) = uploadErrorMessage err /\
        snd r = [ResumeUpload.Upload f]
    end.
Proof.
  intros onSuccess st f mid outcome Hf Hu Hmid started meanwhile r.
  assert (Hclick : ResumeUpload.clickUpload st
                   = (started, [ResumeUpload.Upload f])).
  { subst started. destruct st as [fl u er dr]; cbn in Hf, Hu; subst fl u.
    reflexivity. }
  assert (Hup : ResumeUpload.uploading started = true).
  { subst started. destruct st as [fl u er dr]; cbn in Hf, Hu; subst fl u.
    reflexivity. }
  destruct (user_actions_while_uploading onSuccess mid started Hup Hmid)
    as [Hquiet _].
  assert (Hr : r = (fst (ResumeUpload.handleUpload_settled onSuccess outcome meanwhile),
                    (ResumeUpload.Upload f
                       :: snd (ResumeUpload.handleUpload_settled onSuccess outcome meanwhile))%list)).
  { subst r. cbn [ResumeUpload.run ResumeUpload.step]. rewrite Hclick.
    rewrite run_app. cbv zeta. fold meanwhile. rewrite Hquiet.
    cbn [ResumeUpload.run ResumeUpload.step app fst snd].
    destruct (ResumeUpload.handleUpload_settled onSuccess outcome meanwhile)
      as [st3 fx3]. cbn. now rewrite app_nil_r. }
  rewrite Hr. cbn [fst snd].
  destruct outcome as [d|err]; destruct meanwhile as [fl u er dr]; cbn.
  - destruct onSuccess; cbn; repeat split.
  - repeat split.
Qed.

Lemma request_keeps_its_file_witness :
  let cv := {| name := JS.utf16 "cv.pdf"; size := 1000 |} in
  let newer := {| name := JS.utf16 "cv-v2.pdf"; size := 2000 |} in
  let parsed := {| candidate := {| cname := "Ada"; email := None; location := None;
                                   skills := []; has_embeddings := false |} |} in
  let st := ResumeUpload.mkState (Some cv) false None false in
  let mid := [ResumeUpload.FileSelect (Some newer); ResumeUpload.ClickUpload] in
  let r := ResumeUpload.run true st
             (ResumeUpload.ClickUpload :: mid
                ++ [ResumeUpload.UploadSettled (Fulfilled parsed)]) in
  forallb UploadSession.userAction mid = true /\
  filter ResumeUpload.isUpload (snd r) = [ResumeUpload.Upload cv] /\
  ResumeUpload.file (fst r) = None.
Proof.
  intros cv newer parsed st mid r. split; [reflexivity|].
  destruct (request_keeps_its_file true st cv mid (Fulfilled parsed)
              eq_refl eq_refl eq_refl) as [H1 [_ [H2 _]]].
  split; [exact H1 | exact H2].
Defined.

(** X4.  Picking a file and dropping files stage alike: a drop looks at
    its first file only.  If that file passes [validateFile] it is staged
    and the error is cleared, whatever else was dropped; if it does not,
    the staged file stays as it was and the message is shown, even when a
    later file of the same drop would have passed.  Either way the drop
    highlight ends.  An empty drop only ends the highlight. *)
Theorem drop_stages_first_file_only :
  (forall (f : File) (rest : list File) (st : ResumeUpload.State),
      let st' := ResumeUpload.handleDrop (f :: rest) st in
      ResumeUpload.dragActive st' = false /\
      ResumeUpload.uploading st' = ResumeUpload.uploading st /\
      ResumeUpload.file st' = ResumeUpload.file (ResumeUpload.handleFileSelect (Some f) st) /\
      ResumeUpload.error st' = ResumeUpload.error (ResumeUpload.handleFileSelect (Some f) st) /\
      (valid (validateFile (Some f)) = true ->
       ResumeUpload.file st' = Some f /\ ResumeUpload.error st' = None) /\
      (valid (validateFile (Some f)) = false ->
       ResumeUpload.file st' = ResumeUpload.file st /\
       ResumeUpload.error st' = verror (validateFile (Some f)))) /\
  (forall st : ResumeUpload.State,
      ResumeUpload.handleDrop [] st = ResumeUpload.setDragActive false st) /\
  (forall (f : File) (rest : list File) (st : ResumeUploadPage.State),
      let st' := ResumeUploadPage.handleDrop (f :: rest) st in
      ResumeUploadPage.dragActive st' = false /\
      ResumeUploadPage.file st'
        = ResumeUploadPage.file (ResumeUploadPage.handleFileSelect (Some f) st) /\
      ResumeUploadPage.error st'
        = ResumeUploadPage.error (ResumeUploadPage.handleFileSelect (Some f) st) /\
      ResumeUploadPage.result st'
        = ResumeUploadPage.result (ResumeUploadPage.handleFileSelect (Some f) st)).
Proof.
  split; [|split].
  - intros f rest [fl u er dr]. unfold ResumeUpload.handleDrop,
      ResumeUpload.handleFileSelect. cbv zeta.
    generalize (validateFile (Some f)). intros [vb ve].
    destruct vb; cbn; repeat split; congruence.
  - reflexivity.
  - intros f rest [fl u r er dr]. unfold ResumeUploadPage.handleDrop,
      ResumeUploadPage.handleFileSelect. cbv zeta.
    generalize (validateFile (Some f)). intros [vb ve].
    destruct vb; cbn; repeat split.
Qed.

Lemma drop_stages_first_file_only_witness :
  let notes := {| name := JS.utf16 "notes.txt"; size := 10 |} in
  let cv := {| name := JS.utf16 "cv.pdf"; size := 1000 |} in
  valid (validateFile (Some notes)) = false /\
  valid (validateFile (Some cv)) = true /\
  ResumeUpload.file (ResumeUpload.handleDrop [notes; cv] ResumeUpload.initial) = None /\
  ResumeUpload.file (ResumeUpload.handleDrop [cv; notes] ResumeUpload.initial) = Some cv.
Proof.
  intros notes cv. split; [reflexivity|]. split; [reflexivity|].
  destruct drop_stages_first_file_only as [H _].
  split.
  - destruct (H notes [cv] ResumeUpload.initial) as [_ [_ [_ [_ [_ Hbad]]]]].
    exact (proj1 (Hbad eq_refl)).
  - destruct (H cv [notes] ResumeUpload.initial) as [_ [_ [_ [_ [Hgood _]]]]].
    exact (proj1 (Hgood eq_refl)).
Defined.

(** X5.  The stand-alone page, once round: from an idle form, picking a
    valid file, submitting, an accepted upload and "Upload Another
    Resume" lead back to the empty form with exactly one request sent,
    carrying that file.  In between the result is on screen, and while
    it is, the form's upload and delete controls do nothing; back on the
    empty form the upload button is disabled. *)
Theorem page_upload_round_trip :
  (forall (st : ResumeUploadPage.State) (f : File) (d : ResponseData),
      valid (validateFile (Some f)) = true ->
      ResumeUploadPage.uploading st = false ->
      ResumeUploadPage.result st = None ->
      let shown := fst (ResumeUploadPage.run st
                     [ ResumeUploadPage.FileSelect (Some f);
                       ResumeUploadPage.ClickUpload;
                       ResumeUploadPage.UploadSettled (Fulfilled d) ]) in
      let back := ResumeUploadPage.run st
                     [ ResumeUploadPage.FileSelect (Some f);
                       ResumeUploadPage.ClickUpload;
                       ResumeUploadPage.UploadSettled (Fulfilled d);
                       ResumeUploadPage.ClickUploadAnother ] in
      shown = ResumeUploadPage.mkState None false (Some d) None
                (ResumeUploadPage.dragActive st) /\
      back = (ResumeUploadPage.mkState None false None None
                (ResumeUploadPage.dragActive st),
              [ResumeUploadPage.Upload f]) /\
      ResumeUploadPage.uploadDisabled (fst back) = true) /\
  (forall (st : ResumeUploadPage.State) (d : ResponseData),
      ResumeUploadPage.result st = Some d ->
      ResumeUploadPage.clickUpload st = (st, []) /\
      ResumeUploadPage.clickDelete st = st /\
      ResumeUploadPage.showsError st = false).
Proof.
  split.
  - intros [fl u r er dr] f d Hv Hu Hr. cbn in Hu, Hr. subst u r.
    cbn [ResumeUploadPage.run ResumeUploadPage.step].
    unfold ResumeUploadPage.handleFileSelect. rewrite Hv. cbn.
    repeat split.
  - intros [fl u r er dr] d Hr. cbn in Hr. subst r.
    unfold ResumeUploadPage.clickUpload, ResumeUploadPage.clickDelete,
      ResumeUploadPage.showsError, ResumeUploadPage.formShown. cbn.
    repeat split.
Qed.

Lemma page_upload_round_trip_witness :
  let cv := {| name := JS.utf16 "cv.pdf"; size := 1000 |} in
  let parsed := {| candidate := {| cname := "Ada"; email := None; location := None;
                                   skills := ["Rocq"]; has_embeddings := true |} |} in
  valid (validateFile (Some cv)) = true /\
  ResumeUploadPage.run ResumeUploadPage.initial
    [ ResumeUploadPage.FileSelect (Some cv); ResumeUploadPage.ClickUpload;
      ResumeUploadPage.UploadSettled (Fulfilled parsed);
      ResumeUploadPage.ClickUploadAnother ]
  = (ResumeUploadPage.initial, [ResumeUploadPage.Upload cv]).
Proof.
  intros cv parsed. split; [reflexivity|].
  exact (proj1 (proj2 (proj1 page_upload_round_trip ResumeUploadPage.initial
                             cv parsed eq_refl eq_refl eq_refl))).
Defined.

(* ================================================================== *)
(** * Further properties of the dashboard *)
(* ================================================================== *)

Lemma ownProperty_In (key : string) (props : list (string * Z)) (n : Z) :
  Dashboard.ownProperty key props = Some n -> In (key, n) props.
Proof.
  induction props as [|[k v] rest IH]; simpl; [discriminate|].
  destruct (String.eqb_spec key k) as [->|Hne].
  - intros [= ->]. now left.
  - intros H. right. now apply IH.
Qed.

(** X6.  Whatever status the server reports, the resolved step is never
    [undefined], and when it is a number it is one of 0..5: the stepper
    is never handed an index outside its table. *)
Theorem currentStepIndex_in_range :
  forall s : Dashboard.Status,
    Dashboard.currentStepIndex s <> Dashboard.VUndefined /\
    (forall n : Z,
        Dashboard.currentStepIndex s = Dashboard.VNumber n -> 0 <= n <= 5).
Proof.
  intros s. rewrite currentStepIndex_cases.
  destruct (Dashboard.ownProperty (Dashboard.propertyKey s) Dashboard.statusToStepMap)
    as [m|] eqn:E.
  - split; [discriminate|]. intros n [= <-].
    apply ownProperty_In in E. unfold Dashboard.statusToStepMap in E. simpl in E.
    destruct E as [E|[E|[E|[E|[E|[E|[]]]]]]]; injection E as _ <-; lia.
  - destruct (JS.includes _ _ _).
    + split; [discriminate|]. intros n H. discriminate H.
    + split; [discriminate|]. intros n [= <-]. lia.
Qed.

Lemma currentStepIndex_in_range_witness :
  Dashboard.currentStepIndex (Dashboard.Str "uploaded_results") = Dashboard.VNumber 4 /\
  0 <= 4 <= 5.
Proof.
  split; [reflexivity|].
  apply (proj2 (currentStepIndex_in_range (Dashboard.Str "uploaded_results"))).
  reflexivity.
Defined.

Lemma stepIcons_table (k : Z) :
  0 <= k <= 5 ->
  Stepper.stepIcons (Dashboard.VNumber k)
  = (repeat Stepper.Completed (Z.to_nat k)
      ++ (if k <? 5 then Stepper.Active :: repeat Stepper.Future (Z.to_nat (4 - k))
          else []))%list.
Proof.
  intros Hk.
  assert (H : k = 0 \/ k = 1 \/ k = 2 \/ k = 3 \/ k = 4 \/ k = 5) by lia.
  destruct H as [->|[->|[->|[->|[->| ->]]]]]; reflexivity.
Qed.

(** X7.  The icons of the stepper agree with the line "k of 5 Steps
    Complete": when a status resolves to the number k, the steps before
    index k carry the check mark and there are exactly k of them, the
    step at index k (if k < 5) is the only active one, and the steps
    after it are greyed out.  When the resolved step is not a number, no
    step is checked or active. *)
Theorem step_icons_match_count :
  (forall (s : Dashboard.Status) (k : Z),
      Dashboard.currentStepIndex s = Dashboard.VNumber k ->
      let icons := Stepper.stepIcons (Dashboard.currentStepIndex s) in
      icons = (repeat Stepper.Completed (Z.to_nat k)
                ++ (if k <? 5
                    then Stepper.Active :: repeat Stepper.Future (Z.to_nat (4 - k))
                    else []))%list /\
      Z.of_nat (List.length (filter Stepper.isCompleted icons)) = k /\
      List.length (filter Stepper.isActive icons) = (if k <? 5 then 1%nat else 0%nat) /\
      List.length icons = 5%nat) /\
  (forall key : string,
      Stepper.stepIcons (Dashboard.VInherited key) = repeat Stepper.Future 5).
Proof.
  split; [|reflexivity].
  intros s k Hk icons. subst icons. rewrite Hk.
  pose proof (proj2 (currentStepIndex_in_range s) k Hk) as Hr.
  rewrite (stepIcons_table k Hr).
  assert (H : k = 0 \/ k = 1 \/ k = 2 \/ k = 3 \/ k = 4 \/ k = 5) by lia.
  destruct H as [->|[->|[->|[->|[->| ->]]]]]; repeat split.
Qed.

Lemma step_icons_match_count_witness :
  Dashboard.currentStepIndex (Dashboard.Str "scheduled_intake") = Dashboard.VNumber 2 /\
  Stepper.stepIcons (Dashboard.currentStepIndex (Dashboard.Str "scheduled_intake"))
  = [Stepper.Completed; Stepper.Completed; Stepper.Active;
     Stepper.Future; Stepper.Future].
Proof.
  split; [reflexivity|].
  exact (proj1 (proj1 step_icons_match_count
                  (Dashboard.Str "scheduled_intake") 2 eq_refl)).
Defined.

(** X8.  The two tables of the dashboard fit together: the status
    attached to the step at position i of [onboardingSteps] resolves to
    step i + 1, so a user who has reached that status sees this step and
    all steps before it checked, and the action offered next is the one
    of the following step. *)
Theorem step_status_completes_step :
  forall (i : nat) (step : Dashboard.OnboardingStep),
    nth_error Dashboard.onboardingSteps i = Some step ->
    let cur := Dashboard.currentStepIndex (Dashboard.Str (Dashboard.stepStatus step)) in
    cur = Dashboard.VNumber (Z.of_nat i + 1) /\
    firstn (S i) (Stepper.stepIcons cur) = repeat Stepper.Completed (S i) /\
    Dashboard.stepperActions cur
      = Dashboard.stepContent (Z.of_nat i + 1) (Dashboard.VNumber (Z.of_nat i + 1)).
Proof.
  intros i step H.
  do 5 (destruct i as [|i]; [injection H as <-; repeat split|]).
  destruct i; discriminate H.
Qed.

Lemma step_status_completes_step_witness :
  nth_error Dashboard.onboardingSteps 1
    = Some {| Dashboard.label := "Schedule intake call";
              Dashboard.stepStatus := "scheduled_intake" |} /\
  Dashboard.currentStepIndex (Dashboard.Str "scheduled_intake") = Dashboard.VNumber 2 /\
  Dashboard.stepperActions (Dashboard.currentStepIndex (Dashboard.Str "scheduled_intake"))
    = [Dashboard.takeAssessment].
Proof.
  split; [reflexivity|].
  destruct (step_status_completes_step 1
              {| Dashboard.label := "Schedule intake call";
                 Dashboard.stepStatus := "scheduled_intake" |} eq_refl)
    as [H1 [_ H3]].
  split; [exact H1|exact H3].
Defined.











Lemma dash_step_keeps (w : Portal.World) (ev : Portal.Event) :
  let w' := fst (Portal.step w ev) in
  (Dashboard.loading (Portal.dash w) = false ->
   Dashboard.loading (Portal.dash w') = false) /\
  (Dashboard.error (Portal.dash w) <> "" ->
   Dashboard.error (Portal.dash w') <> "").
Proof.
  destruct w as [[usr l e c show] up].
  destruct ev as [fe|o|o]; cbn.
  - destruct (ResumeUpload.step true up fe) as [u' fxs].
    destruct (Dashboard.uploadPanelShown _); [cbn; auto|].
    destruct fe; cbn; auto.
  - destruct o; cbn; auto.
  - destruct o as [u|err]; cbn.
    + destruct (_ || _); cbn; auto.
    + split; [auto|]. intros _. discriminate.
Qed.

(** X11.  Nothing in the dashboard ever sets [loading] again or clears
    [error]: once the first fetch has settled the spinner never comes
    back, and once a fetch has failed the error alert stays on screen
    whatever happens afterwards (further settlements, later successful
    fetches, anything in the form). *)
Theorem dashboard_error_is_permanent :
  forall (evs : list Portal.Event) (w : Portal.World),
    let w' := fst (Portal.run w evs) in
    (Dashboard.loading (Portal.dash w) = false ->
     Dashboard.loading (Portal.dash w') = false /\
     Dashboard.render (Portal.dash w') <> Dashboard.Spinner) /\
    (Dashboard.errorAlertShown (Portal.dash w) = true ->
     Dashboard.errorAlertShown (Portal.dash w') = true /\
     Dashboard.uploadPanelShown (Portal.dash w') = false /\
     Dashboard.actionsShown (Portal.dash w') = []).
Proof.
  assert (Hkeep : forall evs w,
             let w' := fst (Portal.run w evs) in
             (Dashboard.loading (Portal.dash w) = false ->
              Dashboard.loading (Portal.dash w') = false) /\
             (Dashboard.error (Portal.dash w) <> "" ->
              Dashboard.error (Portal.dash w') <> "")).
  { induction evs as [|ev evs IH]; intros w; [cbn; auto|].
    cbn [Portal.run].
    pose proof (dash_step_keeps w ev) as H1.
    destruct (Portal.step w ev) as [w1 fx1]. cbn [fst] in H1.
    specialize (IH w1).
    destruct (Portal.run w1 evs) as [w2 fx2]. cbn [fst] in *.
    destruct H1 as [H1 H2], IH as [H3 H4]. auto. }
  intros evs w w'. destruct (Hkeep evs w) as [Hl He]. fold w' in Hl, He.
  split.
  - intros H. specialize (Hl H). split; [exact Hl|].
    unfold Dashboard.render. rewrite Hl.
    destruct (negb _); discriminate.
  - unfold Dashboard.errorAlertShown, Dashboard.uploadPanelShown,
      Dashboard.actionsShown, Dashboard.render.
    destruct (Dashboard.loading (Portal.dash w)) eqn:L; [discriminate|].
    destruct (String.eqb_spec (Dashboard.error (Portal.dash w)) "") as [E|E];
      [discriminate|].
    intros _. rewrite (Hl eq_refl).
    destruct (String.eqb_spec (Dashboard.error (Portal.dash w')) "") as [E'|E'];
      [exfalso; now apply (He E)|].
    cbn. repeat split.
Qed.

Lemma dashboard_error_is_permanent_witness :
  let ada := {| Dashboard.userName := Some "Ada";
                Dashboard.status := Dashboard.Str "uploaded_resume" |} in
  let down := {| response := None; message := Some "Network Error" |} in
  let failed := fst (Dashboard.fetchUserData_settled (Rejected down) Dashboard.initial) in
  let w := Portal.mkWorld failed ResumeUpload.initial in
  Dashboard.errorAlertShown (Portal.dash w) = true /\
  Dashboard.errorAlertShown
    (Portal.dash (fst (Portal.run w [Portal.UserFetched (Fulfilled ada)]))) = true.
Proof.
  intros ada down failed w. split; [reflexivity|].
  exact (proj1 (proj2 (dashboard_error_is_permanent
                         [Portal.UserFetched (Fulfilled ada)] w) eq_refl)).
Defined.

(* ================================================================== *)
(** * Session storage, Header and Login *)
(* ================================================================== *)

Lemma getItem_removeItem_same (key : string) (s : LocalStorage.Storage) :
  LocalStorage.getItem key (LocalStorage.removeItem key s) = None.
Proof.
  induction s as [|[k v] rest IH]; simpl; [reflexivity|].
  destruct (String.eqb key k) eqn:E; [exact IH|].
  simpl. now rewrite E.
Qed.

Lemma getItem_removeItem_other (key other : string) (s : LocalStorage.Storage) :
  key <> other ->
  LocalStorage.getItem key (LocalStorage.removeItem other s)
  = LocalStorage.getItem key s.
Proof.
  intros Hne. induction s as [|[k v] rest IH]; simpl; [reflexivity|].
  destruct (String.eqb_spec other k) as [->|Hok].
  - rewrite IH. destruct (String.eqb_spec key k); [contradiction|reflexivity].
  - simpl. now rewrite IH.
Qed.

Lemma getItem_setItem_same (key value : string) (s : LocalStorage.Storage) :
  LocalStorage.getItem key (LocalStorage.setItem key value s) = Some value.
Proof. unfold LocalStorage.setItem. simpl. now rewrite String.eqb_refl. Qed.

Lemma getItem_setItem_other (key other value : string) (s : LocalStorage.Storage) :
  key <> other ->
  LocalStorage.getItem key (LocalStorage.setItem other value s)
  = LocalStorage.getItem key s.
Proof.
  intros Hne. unfold LocalStorage.setItem. simpl.
  destruct (String.eqb_spec key other); [contradiction|].
  now apply getItem_removeItem_other.
Qed.

(** X12.  Logging in and out, seen through storage.  A login answered
    with a non-empty token stores it, after which the header counts the
    user as logged in and every request carries 'Bearer ' followed by
    that token, whatever was stored before.  The header's logout then
    leaves no token, user or user type behind: the header counts the
    user as logged out, requests carry no Authorization header, the login
    page is the candidate one again, and every other stored key is as it
    was before the login.  [authAPI.logout] clears token and user in the
    same way but keeps the user type. *)
Theorem login_logout_round_trip :
  forall (s : LocalStorage.Storage) (st : Login.State)
         (token userJson : string),
    token <> "" ->
    let s1 := fst (fst (Login.handleSubmit_settled
                          (Login.LoggedIn (Some token) userJson) s st)) in
    let s2 := fst (Header.handleLogout s1) in
    Header.isLoggedIn s1 = true /\
    Api.authorization s1 = Some ("Bearer " ++ token) /\
    LocalStorage.getItem "user" s1 = Some userJson /\
    Header.isLoggedIn s2 = false /\
    Api.authorization s2 = None /\
    LocalStorage.getItem "user" s2 = None /\
    Login.isRecruiter s2 = false /\
    (forall key : string,
        key <> "token" -> key <> "user" -> key <> "userType" ->
        LocalStorage.getItem key s2 = LocalStorage.getItem key s) /\
    (Header.isLoggedIn (Api.logout s1) = false /\
     Api.authorization (Api.logout s1) = None /\
     Login.isRecruiter (Api.logout s1) = Login.isRecruiter s).
Proof.
  intros s st token userJson Htok s1 s2.
  assert (Ht : JS.truthy (Some token) = true).
  { simpl. destruct (String.eqb_spec token ""); [contradiction|reflexivity]. }
  assert (Hs1 : s1 = LocalStorage.setItem "user" userJson
                       (LocalStorage.setItem "token" token s)).
  { subst s1. unfold Login.handleSubmit_settled. rewrite Ht. reflexivity. }
  assert (Htoken1 : LocalStorage.getItem "token" s1 = Some token).
  { rewrite Hs1, getItem_setItem_other by discriminate.
    apply getItem_setItem_same. }
  assert (Htoken2 : LocalStorage.getItem "token" s2 = None).
  { subst s2. unfold Header.handleLogout. cbn [fst].
    rewrite !getItem_removeItem_other by discriminate.
    apply getItem_removeItem_same. }
  split; [unfold Header.isLoggedIn; now rewrite Htoken1|].
  split; [unfold Api.authorization; now rewrite Htoken1, Ht|].
  split; [rewrite Hs1; apply getItem_setItem_same|].
  split; [unfold Header.isLoggedIn; now rewrite Htoken2|].
  split; [unfold Api.authorization; now rewrite Htoken2|].
  split.
  { subst s2. unfold Header.handleLogout. cbn [fst].
    rewrite getItem_removeItem_other by discriminate.
    apply getItem_removeItem_same. }
  split.
  { subst s2. unfold Login.isRecruiter, Header.handleLogout. cbn [fst].
    now rewrite getItem_removeItem_same. }
  split.
  { intros key H1 H2 H3. subst s2. unfold Header.handleLogout. cbn [fst].
    rewrite !getItem_removeItem_other by assumption.
    rewrite Hs1. now rewrite !getItem_setItem_other by assumption. }
  assert (Htoken3 : LocalStorage.getItem "token" (Api.logout s1) = None).
  { unfold Api.logout. rewrite getItem_removeItem_other by discriminate.
    apply getItem_removeItem_same. }
  split; [unfold Header.isLoggedIn; now rewrite Htoken3|].
  split; [unfold Api.authorization; now rewrite Htoken3|].
  unfold Login.isRecruiter, Api.logout.
  rewrite !getItem_removeItem_other by discriminate.
  rewrite Hs1. now rewrite !getItem_setItem_other by discriminate.
Qed.

Lemma login_logout_round_trip_witness :
  let s := [("theme", "dark"); ("token", "stale")] in
  let s1 := fst (fst (Login.handleSubmit_settled
                        (Login.LoggedIn (Some "abc123") "{}") s Login.initial)) in
  "abc123" <> "" /\
  Api.authorization s1 = Some "Bearer abc123" /\
  Header.isLoggedIn (fst (Header.handleLogout s1)) = false.
Proof.
  intros s s1. assert (H : "abc123" <> "") by discriminate.
  split; [exact H|].
  destruct (login_logout_round_trip s Login.initial "abc123" "{}" H)
    as [_ [Ha [_ [Hl _]]]].
  split; [exact Ha | exact Hl].
Defined.

(** X13.  What [handleSubmit] does with each answer.  In every case
    [loading] ends cleared.  An accepted login always navigates to
    '/dashboard', also when the answer has no token or an empty one; in
    that case nothing is stored, so the header still counts the user as
    before.  A refused login stores nothing, does not navigate and shows
    one of three fixed messages chosen by the HTTP status alone: 401,
    500, anything else or no response at all. *)
Theorem login_outcomes :
  forall (s : LocalStorage.Storage) (st : Login.State),
    (forall (token : option string) (userJson : string),
        let r := Login.handleSubmit_settled (Login.LoggedIn token userJson) s st in
        snd r = [Login.Navigate "/dashboard"] /\
        Login.loading (snd (fst r)) = false /\
        Login.error (snd (fst r)) = Login.error st /\
        (JS.truthy token = false ->
         fst (fst r) = s /\ Header.isLoggedIn (fst (fst r)) = Header.isLoggedIn s)) /\
    (forall status : option Z,
        let r := Login.handleSubmit_settled (Login.Refused status) s st in
        fst (fst r) = s /\ snd r = [] /\
        Login.loading (snd (fst r)) = false /\
        Login.formData (snd (fst r)) = Login.formData st /\
        Login.error (snd (fst r))
          = (if match status with Some c => c =? 401 | None => false end
             then "Invalid email or password"
             else if match status with Some c => c =? 500 | None => false end
             then "Server error. Please try again later."
             else "An error occurred. Please try again.")).
Proof.
  intros s st. split.
  - intros token userJson r. subst r. cbn.
    split; [reflexivity|]. split; [reflexivity|]. split; [reflexivity|].
    intros Hf. destruct token as [t|]; [rewrite Hf|]; split; reflexivity.
  - intros status r. subst r. cbn. repeat split.
    destruct status as [c|]; [|reflexivity].
    destruct (Z.eqb_spec c 401) as [->|H1]; [reflexivity|].
    destruct (Z.eqb_spec c 500) as [->|H2]; [reflexivity|].
    destruct c as [|p|p]; try reflexivity.
    do 9 (destruct p as [p|p|]; try reflexivity); contradiction.
Qed.

Lemma login_outcomes_witness :
  JS.truthy (Some "") = false /\
  fst (fst (Login.handleSubmit_settled (Login.LoggedIn (Some "") "{}")
              [("userType", "candidate")] Login.initial))
  = [("userType", "candidate")].
Proof.
  split; [reflexivity|].
  destruct (login_outcomes [("userType", "candidate")] Login.initial) as [H _].
  exact (proj1 (proj2 (proj2 (proj2 (H (Some "") "{}"))) eq_refl)).
Defined.

Lemma handleChange_fields (e p : string) (st : Login.State) :
  Login.handleChange "password" p (Login.handleChange "email" e st)
  = Login.mkState (Login.mkForm e p) (Login.error st) (Login.loading st).
Proof. destruct st as [[e0 p0] er l]. reflexivity. Qed.

(** X14.  The login form sends what was typed, once.  With a non-empty
    email and password typed in and no login under way, a click on the
    submit button posts exactly those two values, clears the error and
    sets [loading]; a second click while the first is under way does
    nothing.  With either field empty the button is disabled and nothing
    is posted. *)
Theorem login_submits_once :
  (forall (st : Login.State) (e p : string),
      e <> "" -> p <> "" -> Login.loading st = false ->
      let typed := Login.handleChange "password" p (Login.handleChange "email" e st) in
      Login.clickSubmit typed
        = (Login.mkState (Login.mkForm e p) "" true, [Login.PostLogin e p]) /\
      Login.clickSubmit (fst (Login.clickSubmit typed))
        = (fst (Login.clickSubmit typed), [])) /\
  (forall st : Login.State,
      Login.emailField (Login.formData st) = ""
      \/ Login.passwordField (Login.formData st) = "" ->
      Login.clickSubmit st = (st, [])) /\
  (forall st : Login.State,
      Login.loading st = true -> Login.clickSubmit st = (st, [])).
Proof.
  split; [|split].
  - intros st e p He Hp Hl typed. subst typed. rewrite handleChange_fields, Hl.
    unfold Login.clickSubmit, Login.submitDisabled. cbn.
    destruct (String.eqb_spec e ""); [contradiction|].
    destruct (String.eqb_spec p ""); [contradiction|].
    cbn. split; reflexivity.
  - intros [[e p] er l] [H|H]; cbn in H; subst;
      unfold Login.clickSubmit, Login.submitDisabled; cbn;
      destruct l; cbn; try reflexivity.
    destruct (String.eqb e ""); reflexivity.
  - intros [[e p] er l] H; cbn in H; subst. reflexivity.
Qed.

Lemma login_submits_once_witness :
  "ada@example.org" <> "" /\ "s3cret" <> "" /\
  Login.clickSubmit
    (Login.handleChange "password" "s3cret"
       (Login.handleChange "email" "ada@example.org" Login.initial))
  = (Login.mkState (Login.mkForm "ada@example.org" "s3cret") "" true,
     [Login.PostLogin "ada@example.org" "s3cret"]).
Proof.
  assert (He : "ada@example.org" <> "") by discriminate.
  assert (Hp : "s3cret" <> "") by discriminate.
  split; [exact He|]. split; [exact Hp|].
  exact (proj1 (proj1 login_submits_once Login.initial
                      "ada@example.org" "s3cret" He Hp eq_refl)).
Defined.

(** X15.  The header's choice of user type is what the login page reads
    back: after [handleUserTypeSelect] the page is the recruiter one
    exactly when the type chosen is 'mlg-recruiter', whatever was stored
    before, and the choice survives a login; it touches neither the
    token nor any other key. *)
Theorem user_type_round_trip :
  forall (s : LocalStorage.Storage) (type : string),
    let s1 := fst (Header.handleUserTypeSelect type s) in
    snd (Header.handleUserTypeSelect type s) = [Header.Navigate "/login"] /\
    Login.isRecruiter s1 = String.eqb type "mlg-recruiter" /\
    Header.isLoggedIn s1 = Header.isLoggedIn s /\
    (forall key : string,
        key <> "userType" ->
        LocalStorage.getItem key s1 = LocalStorage.getItem key s) /\
    (forall (st : Login.State) (outcome : Login.Outcome),
        Login.isRecruiter (fst (fst (Login.handleSubmit_settled outcome s1 st)))
        = String.eqb type "mlg-recruiter").
Proof.
  intros s type s1. subst s1. cbn [fst snd Header.handleUserTypeSelect].
  split; [reflexivity|].
  assert (Hr : Login.isRecruiter (LocalStorage.setItem "userType" type s)
               = String.eqb type "mlg-recruiter").
  { unfold Login.isRecruiter. now rewrite getItem_setItem_same. }
  split; [exact Hr|].
  split; [unfold Header.isLoggedIn; now rewrite getItem_setItem_other by discriminate|].
  split; [intros key Hk; now apply getItem_setItem_other|].
  intros st [token userJson|status]; [|exact Hr].
  unfold Login.handleSubmit_settled. cbn [fst].
  destruct token as [t|]; [|exact Hr].
  destruct (JS.truthy (Some t)); [|exact Hr].
  unfold Login.isRecruiter.
  rewrite !getItem_setItem_other by discriminate.
  now rewrite getItem_setItem_same.
Qed.

Lemma user_type_round_trip_witness :
  let s := [("userType", "candidate"); ("token", "abc123")] in
  let s1 := fst (Header.handleUserTypeSelect "mlg-recruiter" s) in
  "token" <> "userType" /\
  Login.isRecruiter s = false /\
  Login.isRecruiter s1 = true /\
  LocalStorage.getItem "token" s1 = Some "abc123".
Proof.
  intros s s1. assert (H : "token" <> "userType") by discriminate.
  split; [exact H|]. split; [reflexivity|].
  destruct (user_type_round_trip s "mlg-recruiter") as [_ [Hr [_ [Hk _]]]].
  split; [exact Hr|]. exact (Hk "token" H).
Defined.
